(** * ts-poc: the create-project request pipeline of [src/index.ts]

    A shallow embedding of the single source file [src/index.ts]: the three
    combinators [entityAs], [headerValueByName] and [completeAsJson], the zod
    formats of the domain, the service function [createProject] and the
    handler registered with [app.post].

    The file depends on three packages whose code is not part of the
    repository.  The parts of them that the handler runs are modelled here
    from the packages' own code, each under the name it has there:
    - zod 3: [ZodString._parse] with its [trim], [min] and [uuid] checks,
      [ZodObject._parse] in its default "strip" mode, [safeParse], [parse];
    - uuid: [v4] (sixteen random bytes, version and variant bits, hexadecimal
      rendering);
    - express: the [req.body] and [req.headers] a handler reads and the
      [res.status] / [res.send] calls it makes. *)

From Stdlib Require Import ZArith QArith List Ascii String Lia.
From stdpp Require Import base option list gmap.

Open Scope Z_scope.

(** ** JavaScript strings

    A JavaScript string is a sequence of UTF-16 code units. *)

Module Js.

Definition code_unit := Z.
Definition str := list Z.

(** The code units of an ASCII literal of the source. *)
Definition lit (s : string) : str :=
  map (fun a => Z.of_nat (nat_of_ascii a)) (list_ascii_of_string s).

(** [WhiteSpace] and [LineTerminator] of ECMAScript: what
    [String.prototype.trim] strips. *)
Definition isWhiteSpace (c : code_unit) : bool :=
  (c =? 9) || (c =? 10) || (c =? 11) || (c =? 12) || (c =? 13) || (c =? 32)
  || (c =? 160) || (c =? 5760)
  || ((8192 <=? c) && (c <=? 8202))
  || (c =? 8232) || (c =? 8233) || (c =? 8239) || (c =? 8287)
  || (c =? 12288) || (c =? 65279).

Fixpoint trimStart (s : str) : str :=
  match s with
  | c :: s' => if isWhiteSpace c then trimStart s' else s
  | [] => []
  end.

Definition trimEnd (s : str) : str := rev (trimStart (rev s)).

(** [s.trim()] *)
Definition trim (s : str) : str := trimEnd (trimStart s).

(** [c] lowered, for the code units of ASCII letters.  The one call of
    [toLowerCase] in the source is on the literal header name. *)
Definition lowerUnit (c : code_unit) : code_unit :=
  if (65 <=? c) && (c <=? 90) then c + 32 else c.

Definition toLowerCase (s : str) : str := map lowerUnit s.

Fixpoint startsWith (s p : str) : bool :=
  match p, s with
  | [], _ => true
  | _ :: _, [] => false
  | a :: p', b :: s' => (a =? b) && startsWith s' p'
  end.

(** [s.includes(p)]: [p] occurs in [s] as a contiguous run of code units. *)
Fixpoint includes (s p : str) : bool :=
  startsWith s p ||
  match s with
  | [] => false
  | _ :: s' => includes s' p
  end.

(** The values a request body, a header or a handler's result can be.
    Objects are finite maps from property names to values. *)
#[warnings="-register-all"]
Inductive value :=
| VUndefined
| VNull
| VBool (b : bool)
| VNum (x : Q)
| VStr (s : str)
| VArr (l : list value)
| VObj (m : gmap str value).

End Js.

(** ** The uuid package: [v4] *)

Module Uuid.

(** One hexadecimal digit, lower case, as [Number.prototype.toString(16)]
    prints it. *)
Definition hexDigit (d : Z) : Js.code_unit :=
  if d <? 10 then 48 + d else 87 + d.

(** [byteToHex[b]], the table entry [(b + 0x100).toString(16).slice(1)] of a
    byte [b]. *)
Definition byteToHex (b : Z) : Js.str := [hexDigit (b / 16); hexDigit (b mod 16)].

Definition hexAt (arr : list Z) (i : nat) : Js.str := byteToHex (arr !!! i).

(** [unsafeStringify(arr)]: the bytes in groups of 4, 2, 2, 2 and 6,
    joined by ['-']. *)
Definition unsafeStringify (arr : list Z) : Js.str :=
  hexAt arr 0 ++ hexAt arr 1 ++ hexAt arr 2 ++ hexAt arr 3 ++ Js.lit "-" ++
  hexAt arr 4 ++ hexAt arr 5 ++ Js.lit "-" ++
  hexAt arr 6 ++ hexAt arr 7 ++ Js.lit "-" ++
  hexAt arr 8 ++ hexAt arr 9 ++ Js.lit "-" ++
  hexAt arr 10 ++ hexAt arr 11 ++ hexAt arr 12 ++ hexAt arr 13 ++
  hexAt arr 14 ++ hexAt arr 15.

(** [v4()] on the sixteen bytes [rnds] drawn from the random source:
    [rnds[6] = (rnds[6] & 0x0f) | 0x40; rnds[8] = (rnds[8] & 0x3f) | 0x80]
    and the bytes rendered. *)
Definition v4 (rnds : list Z) : Js.str :=
  let rnds := <[6%nat := Z.lor (Z.land (rnds !!! 6%nat) 15) 64]> rnds in
  let rnds := <[8%nat := Z.lor (Z.land (rnds !!! 8%nat) 63) 128]> rnds in
  unsafeStringify rnds.

Definition isByte (b : Z) : Prop := 0 <= b < 256.

(** What the random source returns: a [Uint8Array] of length 16. *)
Definition isRandomBytes (rnds : list Z) : Prop :=
  length rnds = 16%nat /\ Forall isByte rnds.

End Uuid.

(** ** zod 3: string formats and object shapes *)

Module Zod.

(** [ZodParsedType], the members a [Js.value] can have. *)
Inductive ZodParsedType :=
| string_ | number_ | boolean_ | undefined_ | null_ | array_ | object_.

(** [getParsedType(data)] *)
Definition getParsedType (data : Js.value) : ZodParsedType :=
  match data with
  | Js.VUndefined => undefined_
  | Js.VNull => null_
  | Js.VBool _ => boolean_
  | Js.VNum _ => number_
  | Js.VStr _ => string_
  | Js.VArr _ => array_
  | Js.VObj _ => object_
  end.

(** The issue codes the checks of the source can raise, with the fields
    zod stores next to them. *)
Inductive ZodIssueCode :=
| invalid_type (expected received : ZodParsedType)
| too_small (minimum : Z)
| invalid_string_uuid.

(** An issue: its code and the path of property names from the parsed
    value down to the place it was found at. *)
Record ZodIssue := { code : ZodIssueCode; path : list Js.str }.

Record ZodError := { issues : list ZodIssue }.

(** The release line of zod 3.  [uuid()] tests one pattern up to 3.22 and
    another one from then on; everything else modelled here is common to
    both. *)
Inductive Release := before_3_22 | since_3_22.

Definition isDigit (c : Js.code_unit) : bool := (48 <=? c) && (c <=? 57).

(** [[a-f0-9]] under the [i] flag, the same set as [[0-9a-fA-F]]. *)
Definition isHex (c : Js.code_unit) : bool :=
  isDigit c || ((97 <=? c) && (c <=? 102)) || ((65 <=? c) && (c <=? 70)).

(** [[1-5]] *)
Definition isVersion (c : Js.code_unit) : bool := (49 <=? c) && (c <=? 53).

(** [[x]{n}] at the head of [s]: the rest of [s] after [n] code units of
    class [x]. *)
Fixpoint run (x : Js.code_unit -> bool) (n : nat) (s : Js.str) : option Js.str :=
  match n with
  | O => Some s
  | S n' =>
      match s with
      | c :: s' => if x c then run x n' s' else None
      | [] => None
      end
  end.

(** [-] at the head of [s].  The [\b] before it in the later pattern holds
    between a hexadecimal digit and [-]. *)
Definition dash (s : Js.str) : option Js.str :=
  match s with
  | 45 :: s' => Some s'
  | _ => None
  end.

Definition atEnd (s : Js.str) : bool :=
  match s with
  | [] => true
  | _ :: _ => false
  end.

(** [/^[0-9a-fA-F]{8}\b-[0-9a-fA-F]{4}\b-[0-9a-fA-F]{4}\b-[0-9a-fA-F]{4}\b-[0-9a-fA-F]{12}$/i] *)
Definition uuidRegex_since_3_22 (s : Js.str) : bool :=
  match
    s1 ← run isHex 8 s; s2 ← dash s1;
    s3 ← run isHex 4 s2; s4 ← dash s3;
    s5 ← run isHex 4 s4; s6 ← dash s5;
    s7 ← run isHex 4 s6; s8 ← dash s7;
    run isHex 12 s8
  with
  | Some rest => atEnd rest
  | None => false
  end.

(** [/^([a-f0-9]{8}-[a-f0-9]{4}-[1-5][a-f0-9]{3}-[a-f0-9]{4}-[a-f0-9]{12}|00000000-0000-0000-0000-000000000000)$/i] *)
Definition uuidRegex_before_3_22 (s : Js.str) : bool :=
  match
    s1 ← run isHex 8 s; s2 ← dash s1;
    s3 ← run isHex 4 s2; s4 ← dash s3;
    s5 ← run isVersion 1 s4; s5' ← run isHex 3 s5; s6 ← dash s5';
    s7 ← run isHex 4 s6; s8 ← dash s7;
    run isHex 12 s8
  with
  | Some rest => atEnd rest
  | None => false
  end
  || bool_decide (s = Js.lit "00000000-0000-0000-0000-000000000000").

(** [uuidRegex.test(s)] *)
Definition uuidRegex (r : Release) : Js.str -> bool :=
  match r with
  | before_3_22 => uuidRegex_before_3_22
  | since_3_22 => uuidRegex_since_3_22
  end.

(** The checks [ZodString] keeps in [_def.checks]. *)
Inductive ZodStringCheck :=
| check_trim
| check_min (value : Z)
| check_uuid.

(** A string format is its list of checks, in the order they were added. *)
Definition ZodString := list ZodStringCheck.

(** [z.string()], [.trim()], [.min(n)], [.uuid()]: each call appends its
    check. *)
Definition string : ZodString := [].
Definition trim (f : ZodString) : ZodString := f ++ [check_trim].
Definition min (value : Z) (f : ZodString) : ZodString := f ++ [check_min value].
Definition uuid (f : ZodString) : ZodString := f ++ [check_uuid].

(** [SyncParseReturnType]: [INVALID] is status "aborted". *)
Inductive ParseReturn (A : Type) :=
| INVALID
| DIRTY (value : A)
| OK (value : A).
Arguments INVALID {A}.
Arguments DIRTY {A} value.
Arguments OK {A} value.

(** [SafeParseReturnType] *)
Inductive SafeParseReturn (A : Type) :=
| success (data : A)
| failure (error : ZodError).
Arguments success {A} data.
Arguments failure {A} error.

Section Parse.
Variable release : Release.

(** The loop over [_def.checks] in [ZodString._parse]: [data] is
    [input.data], which [trim] replaces; the result is whether the status
    became dirty, the final [input.data] and the issues added. *)
Fixpoint runChecks (checks : list ZodStringCheck) (at_ : list Js.str) (data : Js.str)
  : bool * Js.str * list ZodIssue :=
  match checks with
  | [] => (false, data, [])
  | check_trim :: rest => runChecks rest at_ (Js.trim data)
  | check_min value :: rest =>
      let '(dirty, out, found) := runChecks rest at_ data in
      if Z.of_nat (length data) <? value
      then (true, out, {| code := too_small value; path := at_ |} :: found)
      else (dirty, out, found)
  | check_uuid :: rest =>
      let '(dirty, out, found) := runChecks rest at_ data in
      if negb (uuidRegex release data)
      then (true, out, {| code := invalid_string_uuid; path := at_ |} :: found)
      else (dirty, out, found)
  end.

(** [ZodString._parse(input)] at path [at_]: the parse status with the
    output, and the issues added to the context. *)
Definition ZodString_parse (f : ZodString) (at_ : list Js.str) (input : Js.value)
  : ParseReturn Js.str * list ZodIssue :=
  match input with
  | Js.VStr data =>
      let '(dirty, out, found) := runChecks f at_ data in
      (if dirty then DIRTY out else OK out, found)
  | _ =>
      (INVALID,
       [{| code := invalid_type string_ (getParsedType input); path := at_ |}])
  end.

(** A shape whose properties are string formats, as both shapes of the
    source are. *)
Definition ZodRawShape := list (Js.str * ZodString).

(** The first loop of [ZodObject._parse]: every key of the shape, in its
    order, with the parse of [ctx.data[key]] at path [ctx.path ++ [key]]. *)
Fixpoint parsePairs (shape : ZodRawShape) (at_ : list Js.str) (data : gmap Js.str Js.value)
  : list (Js.str * ParseReturn Js.str) * list ZodIssue :=
  match shape with
  | [] => ([], [])
  | (key, keyValidator) :: rest =>
      let '(r, found) :=
        ZodString_parse keyValidator (at_ ++ [key]) (default Js.VUndefined (data !! key)) in
      let '(pairs, found') := parsePairs rest at_ data in
      ((key, r) :: pairs, found ++ found')
  end.

(** [ParseStatus.mergeObjectSync(status, pairs)] from a clean status: the
    first aborted pair aborts, a dirty pair dirties, and every value is set
    in the final object. *)
Fixpoint mergeObjectSync (dirty : bool) (pairs : list (Js.str * ParseReturn Js.str))
  (finalObject : gmap Js.str Js.value) : ParseReturn (gmap Js.str Js.value) :=
  match pairs with
  | [] => if dirty then DIRTY finalObject else OK finalObject
  | (key, INVALID) :: _ => INVALID
  | (key, DIRTY v) :: rest => mergeObjectSync true rest (<[key := Js.VStr v]> finalObject)
  | (key, OK v) :: rest => mergeObjectSync dirty rest (<[key := Js.VStr v]> finalObject)
  end.

(** [ZodObject._parse(input)] with [unknownKeys: "strip"], the default of
    [z.object]: keys outside the shape are not looked at. *)
Definition ZodObject_parse (shape : ZodRawShape) (at_ : list Js.str) (input : Js.value)
  : ParseReturn (gmap Js.str Js.value) * list ZodIssue :=
  match input with
  | Js.VObj data =>
      let '(pairs, found) := parsePairs shape at_ data in
      (mergeObjectSync false pairs ∅, found)
  | _ =>
      (INVALID,
       [{| code := invalid_type object_ (getParsedType input); path := at_ |}])
  end.

(** [handleResult(ctx, result)]: only status "valid" is a success. *)
Definition handleResult {A} (result : ParseReturn A * list ZodIssue) : SafeParseReturn A :=
  match result with
  | (OK value, _) => success value
  | (_, found) => failure {| issues := found |}
  end.

(** [schema.safeParse(data)], for a string format and for an object. *)
Definition safeParseString (f : ZodString) (data : Js.value) : SafeParseReturn Js.str :=
  handleResult (ZodString_parse f [] data).

Definition safeParseObject (shape : ZodRawShape) (data : Js.value)
  : SafeParseReturn (gmap Js.str Js.value) :=
  handleResult (ZodObject_parse shape [] data).

End Parse.

End Zod.

(** ** express: what a handler reads and writes *)

Module Express.

(** A value of [req.headers]: [string | string[]]. *)
Inductive IncomingHeader :=
| One (s : Js.str)
| Many (l : list Js.str).

(** The header value as the JavaScript value it is. *)
Definition headerValue (h : IncomingHeader) : Js.value :=
  match h with
  | One s => Js.VStr s
  | Many l => Js.VArr (map Js.VStr l)
  end.

(** [req.body] as [express.json()] left it, and [req.headers], keyed by the
    lower-cased header names. *)
Record Request := { body : Js.value; headers : gmap Js.str IncomingHeader }.

(** The argument of one [res.send]: a JavaScript value, or the text
    [JSON.stringify(error)] of a [ZodError], whose characters are not
    modelled. *)
Inductive Payload :=
| Value (v : Js.value)
| Stringified (error : Zod.ZodError).

(** [res]: the status set by [res.status] and the payloads of the calls of
    [res.send], oldest first. *)
Record Response := { statusCode : Z; sent : list Payload }.

(** The response a handler is given. *)
Definition fresh : Response := {| statusCode := 200; sent := [] |}.

End Express.

(** ** Running a handler

    A handler mutates [res] and either returns or throws.  Next to [res] the
    state keeps which functions of the source were entered, in order; this
    list is not in the source and only lets the order of the stages be
    stated. *)

Inductive Call :=
| in_entityAs
| in_headerValueByName
| in_completeAsJson
| in_createProject.

Record World := { res : Express.Response; entered : list Call }.

Definition start : World := {| res := Express.fresh; entered := [] |}.

Inductive Completion (A : Type) :=
| Normal (a : A)
| Throw (error : Zod.ZodError).
Arguments Normal {A} a.
Arguments Throw {A} error.

Definition Run (A : Type) : Type := World -> Completion A * World.

#[global] Instance Run_ret : MRet Run := fun A a w => (Normal a, w).

#[global] Instance Run_bind : MBind Run := fun A B k m w =>
  match m w with
  | (Normal a, w') => k a w'
  | (Throw error, w') => (Throw error, w')
  end.

Definition throw {A} (error : Zod.ZodError) : Run A := fun w => (Throw error, w).

Definition enter (c : Call) : Run unit := fun w =>
  (Normal tt, {| res := res w; entered := entered w ++ [c] |}).

(** [res.status(code)] *)
Definition res_status (code : Z) : Run unit := fun w =>
  (Normal tt,
   {| res := {| Express.statusCode := code; Express.sent := Express.sent (res w) |};
      entered := entered w |}).

(** [res.send(body)] *)
Definition res_send (p : Express.Payload) : Run unit := fun w =>
  (Normal tt,
   {| res := {| Express.statusCode := Express.statusCode (res w);
                Express.sent := Express.sent (res w) ++ [p] |};
      entered := entered w |}).

(** [(req, res, next) => ...]; no handler of the source uses [next]. *)
Definition RequestHandler : Type := Express.Request -> Run unit.

(** The values [Math.random()] and the random source of [v4()] return
    during one call of the handler.  A number is the rational it denotes. *)
Record Draws := { Math_random : Q; rnds : list Z }.

(** The literal [0.3]: the double nearest to 3/10. *)
Definition literal_0_3 : Q := 5404319552844595 # 18014398509481984.

(** [x < y] on numbers. *)
Definition Qltb (x y : Q) : bool := Qnum x * QDen y <? Qnum y * QDen x.

Section Source.
Variable release : Zod.Release.

(** [schema.parse(data)] of a string format: the output, or the [ZodError]
    thrown. *)
Definition parse (f : Zod.ZodString) (data : Js.value) : Run Js.str :=
  match Zod.safeParseString release f data with
  | Zod.success out => mret out
  | Zod.failure error => throw error
  end.

(** *** UTIL *)

Definition entityAs (object : Zod.ZodRawShape)
  (result : gmap Js.str Js.value -> RequestHandler) : RequestHandler :=
  fun req =>
    enter in_entityAs;;
    match Zod.safeParseObject release object (Express.body req) with
    | Zod.success data => result data req
    | Zod.failure error =>
        res_status 400;;
        res_send (Express.Stringified error)
    end.

Definition headerValueByName (name : Js.str)
  (result : Express.IncomingHeader -> RequestHandler) : RequestHandler :=
  fun req =>
    enter in_headerValueByName;;
    match Express.headers req !! Js.toLowerCase name with
    | None =>
        res_status 400;;
        res_send (Express.Value (Js.VStr (Js.lit "No header " ++ name)))
    | Some value => result value req
    end.

Definition completeAsJson (result : Run (Z * Js.value)) : RequestHandler :=
  fun req =>
    enter in_completeAsJson;;
    ev ← result;
    res_status (fst ev);;
    res_send (Express.Value (snd ev)).

(** *** DOMAIN *)

Definition projectNameFormat : Zod.ZodString := Zod.min 1 (Zod.trim Zod.string).
Definition projectIdFormat : Zod.ZodString := Zod.uuid Zod.string.
Definition userIdFormat : Zod.ZodString := Zod.uuid Zod.string.

Definition Project : Zod.ZodRawShape :=
  [(Js.lit "id", projectIdFormat);
   (Js.lit "userId", userIdFormat);
   (Js.lit "name", projectNameFormat)].

(** *** DTO *)

Definition CreateProjectRequest : Zod.ZodRawShape :=
  [(Js.lit "name", projectNameFormat)].

Inductive CreateProjectResponse :=
| Created (project : gmap Js.str Js.value)
| UserNotFound (userId : Js.str).

(** *** SERVICE *)

(** [{...request, userId: userId, id: projectIdFormat.parse(v4())}] copies
    the properties of [request] and then sets [userId] and [id]. *)
Definition createProject (d : Draws) (userId : Js.str) (request : gmap Js.str Js.value)
  : Run CreateProjectResponse :=
  enter in_createProject;;
  let rand := Math_random d in
  if Qltb rand literal_0_3 then
    mret (UserNotFound userId)
  else
    id ← parse projectIdFormat (Js.VStr (Uuid.v4 (rnds d)));
    mret (Created (<[Js.lit "id" := Js.VStr id]>
                     (<[Js.lit "userId" := Js.VStr userId]> request))).

(** *** MAIN *)

(** The function handed to [completeAsJson]. *)
Definition outcome (d : Draws) (token : Express.IncomingHeader)
  (request : gmap Js.str Js.value) : Run (Z * Js.value) :=
  userId ← parse userIdFormat (Express.headerValue token);
  response ← createProject d userId request;
  match response with
  | Created project => mret (201, Js.VObj project)
  | UserNotFound _ => mret (404, Js.VStr (Js.lit "Sry, no user found"))
  end.

(** The handler of [app.post('/', ...)]. *)
Definition post (d : Draws) : RequestHandler :=
  entityAs CreateProjectRequest (fun request =>
    headerValueByName (Js.lit "Authorization") (fun token =>
      completeAsJson (outcome d token request))).

End Source.

(** ** Vocabulary of the statements *)

Arguments Js.lit : simpl never.

Definition issue (c : Zod.ZodIssueCode) (at_ : list Js.str) : Zod.ZodIssue :=
  {| Zod.code := c; Zod.path := at_ |}.

(** The error holding one issue. *)
Definition oneIssue (c : Zod.ZodIssueCode) (at_ : list Js.str) : Zod.ZodError :=
  {| Zod.issues := [issue c at_] |}.

(** An error references a field when the path of one of its issues goes
    through it. *)
Definition references (field : Js.str) (error : Zod.ZodError) : Prop :=
  Exists (fun i => field ∈ Zod.path i) (Zod.issues error).

(** The state in which [res] has status [code] and the payloads [body], and
    the functions [calls] were entered. *)
Definition world (code : Z) (body : list Express.Payload) (calls : list Call) : World :=
  {| res := {| Express.statusCode := code; Express.sent := body |}; entered := calls |}.

(** [w] after one more function was entered. *)
Definition entering (c : Call) (w : World) : World :=
  {| res := res w; entered := entered w ++ [c] |}.

(** The four stages in the order the handler nests them. *)
Definition stages : list Call :=
  [in_entityAs; in_headerValueByName; in_completeAsJson; in_createProject].

(** The plain-text bodies of the source. *)
Definition no_header_Authorization : Js.value := Js.VStr (Js.lit "No header Authorization").
Definition sry_no_user_found : Js.str := Js.lit "Sry, no user found".

(** The project [createProject] builds from [request]. *)
Definition projectOf (id userId : Js.str) (request : gmap Js.str Js.value)
  : gmap Js.str Js.value :=
  <[Js.lit "id" := Js.VStr id]> (<[Js.lit "userId" := Js.VStr userId]> request).

(** The functions entered while the handler serves [req]. *)
Definition trace (r : Zod.Release) (d : Draws) (req : Express.Request) : list Call :=
  entered (snd (post r d req start)).

(** A string is blank when it is empty or all white space. *)
Definition blank (s : Js.str) : Prop := forallb Js.isWhiteSpace s = true.

(** The property [key] of a body, for a body that is an object with it. *)
Definition field (body : Js.value) (key : Js.str) : option Js.value :=
  match body with
  | Js.VObj m => m !! key
  | _ => None
  end.

(** *** Sample requests and draws *)

Definition caller : Js.str := Js.lit "3fa85f64-5717-4562-b3fc-2c963f66afa6".

Definition named (name : string) : Js.value :=
  Js.VObj {[ Js.lit "name" := Js.VStr (Js.lit name) ]}.

Definition authorized (h : Express.IncomingHeader) : gmap Js.str Express.IncomingHeader :=
  {[ Js.lit "authorization" := h ]}.

(** [{"name":"Demo"}] with the caller's header. *)
Definition demo : Express.Request :=
  {| Express.body := named "Demo"; Express.headers := authorized (Express.One caller) |}.

(** [{"name":" Demo "}] with the caller's header. *)
Definition padded : Express.Request :=
  {| Express.body := named " Demo "; Express.headers := authorized (Express.One caller) |}.

(** [{"name":"Demo","owner":null}] with the caller's header. *)
Definition extended : Express.Request :=
  {| Express.body :=
       Js.VObj {[ Js.lit "name" := Js.VStr (Js.lit "Demo"); Js.lit "owner" := Js.VNull ]};
     Express.headers := authorized (Express.One caller) |}.

(** [{}] with no header. *)
Definition bare : Express.Request :=
  {| Express.body := Js.VObj ∅; Express.headers := ∅ |}.

(** [[]] with the caller's header. *)
Definition listed : Express.Request :=
  {| Express.body := Js.VArr []; Express.headers := authorized (Express.One caller) |}.

(** [{"name":"Demo"}] with no header. *)
Definition anonymous : Express.Request :=
  {| Express.body := named "Demo"; Express.headers := ∅ |}.

(** [{"name":"Demo"}] with a header that is no identifier. *)
Definition garbled : Express.Request :=
  {| Express.body := named "Demo";
     Express.headers := authorized (Express.One (Js.lit "Bearer abc")) |}.

(** [{"name":"Demo"}] with the caller's header given twice. *)
Definition repeated : Express.Request :=
  {| Express.body := named "Demo";
     Express.headers := authorized (Express.Many [caller; caller]) |}.

Definition bytes : list Z := [0; 17; 34; 51; 68; 85; 102; 119; 136; 153; 170; 187; 204; 221; 238; 255].

(** A draw of one half, above the threshold, and one of a tenth, below. *)
Definition high : Draws := {| Math_random := 1 # 2; rnds := bytes |}.
Definition low : Draws := {| Math_random := 1 # 10; rnds := bytes |}.

(** A project as a client would send it back, with one property too many. *)
Definition returned : Js.value :=
  Js.VObj {[ Js.lit "id" := Js.VStr caller;
             Js.lit "userId" := Js.VStr caller;
             Js.lit "name" := Js.VStr (Js.lit " Demo ");
             Js.lit "owner" := Js.VNull ]}.

(** The same project with only its declared properties. *)
Definition returned_exactly : Js.value :=
  Js.VObj {[ Js.lit "id" := Js.VStr caller;
             Js.lit "userId" := Js.VStr caller;
             Js.lit "name" := Js.VStr (Js.lit " Demo ") ]}.

(** A request object that brings its own [id] and [userId]. *)
Definition forged : gmap Js.str Js.value :=
  {[ Js.lit "name" := Js.VStr (Js.lit "Demo");
     Js.lit "id" := Js.VStr (Js.lit "1");
     Js.lit "userId" := Js.VStr (Js.lit "root") ]}.

(** A parse is accepted when its status is valid. *)
Definition accepted {A} (p : Zod.ParseReturn A) : Prop := exists out, p = Zod.OK out.

(** * Properties *)

(** ** Strings *)

Lemma trimStart_blank (s : Js.str) :
  Js.trimStart s = [] <-> forallb Js.isWhiteSpace s = true.
Proof.
  induction s as [|c s IH]; simpl; [tauto|].
  destruct (Js.isWhiteSpace c); simpl; [exact IH|].
  split; discriminate.
Qed.

Lemma trimStart_head (s : Js.str) (c : Js.code_unit) (t : Js.str) :
  Js.trimStart s = c :: t -> Js.isWhiteSpace c = false.
Proof.
  induction s as [|a s IH]; simpl; [discriminate|].
  destruct (Js.isWhiteSpace a) eqn:Ha; [exact IH|].
  intros [= <- _]. exact Ha.
Qed.

Lemma forallb_rev {A} (f : A -> bool) (l : list A) :
  forallb f (rev l) = forallb f l.
Proof.
  induction l as [|a l IH]; simpl; [reflexivity|].
  rewrite forallb_app, IH. simpl. rewrite andb_true_r. apply andb_comm.
Qed.

(** A string trims to the empty string exactly when it is empty or all
    white space. *)
Lemma trim_blank (s : Js.str) :
  Js.trim s = [] <-> forallb Js.isWhiteSpace s = true.
Proof.
  unfold Js.trim, Js.trimEnd. rewrite <- trimStart_blank. split.
  - intros H. apply (f_equal (@rev _)) in H. rewrite rev_involutive in H.
    simpl in H. apply trimStart_blank in H. rewrite forallb_rev in H.
    destruct (Js.trimStart s) as [|c t] eqn:E; [reflexivity|].
    apply trimStart_head in E. simpl in H. rewrite E in H. discriminate.
  - intros ->. reflexivity.
Qed.

Lemma startsWith_length (s p : Js.str) :
  Js.startsWith s p = true -> (length p <= length s)%nat.
Proof.
  revert s. induction p as [|a p IH]; intros [|b s]; simpl; try lia; try discriminate.
  intros [_ H]%andb_true_iff. apply IH in H. lia.
Qed.

Lemma includes_cons (c : Js.code_unit) (s p : Js.str) :
  Js.includes (c :: s) p = Js.startsWith (c :: s) p || Js.includes s p.
Proof. reflexivity. Qed.

Lemma includes_nil (p : Js.str) : Js.includes [] p = Js.startsWith [] p.
Proof. unfold Js.includes. apply orb_false_r. Qed.

Lemma includes_length (s p : Js.str) :
  Js.includes s p = true -> (length p <= length s)%nat.
Proof.
  induction s as [|b s IH].
  - rewrite includes_nil. apply startsWith_length.
  - rewrite includes_cons. intros [H|H]%orb_true_iff.
    + apply startsWith_length in H. exact H.
    + apply IH in H. simpl. lia.
Qed.

(** [includes] is occurrence as a contiguous run. *)
Lemma startsWith_spec (s p : Js.str) :
  Js.startsWith s p = true <-> exists t, s = p ++ t.
Proof.
  revert s. induction p as [|a p IH]; intros s.
  - destruct s; simpl; split; eauto.
  - destruct s as [|b s]; simpl.
    + split; [discriminate | intros [t [=]]].
    + rewrite andb_true_iff, Z.eqb_eq, IH. split.
      * intros [-> [t ->]]. exists t. reflexivity.
      * intros [t [= -> ->]]. split; [reflexivity | exists t; reflexivity].
Qed.

Lemma includes_spec (s p : Js.str) :
  Js.includes s p = true <-> exists a b, s = a ++ p ++ b.
Proof.
  induction s as [|c s IH].
  - rewrite includes_nil, startsWith_spec. split.
    + intros [t E]. exists [], t. exact E.
    + intros [a [b E]]. destruct a; [|discriminate]. exists b. exact E.
  - rewrite includes_cons, orb_true_iff, IH, startsWith_spec. split.
    + intros [[t E]|[a [b E]]].
      * exists [], t. exact E.
      * exists (c :: a), b. simpl. rewrite E. reflexivity.
    + intros [[|x a] [b E]].
      * left. exists b. exact E.
      * right. injection E as -> ->. exists a, b. reflexivity.
Qed.

(** ** The uuid patterns and [v4] *)

Lemma run_length (x : Js.code_unit -> bool) (n : nat) (s t : Js.str) :
  Zod.run x n s = Some t -> length s = (n + length t)%nat.
Proof.
  revert s. induction n as [|n IH]; intros s; simpl.
  - intros [= ->]. reflexivity.
  - destruct s as [|c s]; [discriminate|].
    destruct (x c); [|discriminate].
    intros H%IH. simpl. lia.
Qed.

Lemma dash_length (s t : Js.str) :
  Zod.dash s = Some t -> length s = S (length t).
Proof.
  destruct s as [|c s]; [discriminate|]. simpl.
  destruct c as [|p|p]; try discriminate.
  do 6 (destruct p as [p|p|]; try discriminate).
  intros [= ->]. reflexivity.
Qed.

Lemma atEnd_nil (s : Js.str) : Zod.atEnd s = true -> s = [].
Proof. destruct s; [reflexivity | discriminate]. Qed.

Lemma bind_Some {A B} (f : A -> option B) (a : A) : mbind f (Some a) = f a.
Proof. reflexivity. Qed.

Lemma bind_None {A B} (f : A -> option B) : mbind f None = None.
Proof. reflexivity. Qed.

(** One step through a pattern written with the option bind. *)
Ltac pattern_step H :=
  match type of H with
  | context [mbind _ ?o] =>
      let E := fresh "E" in
      destruct o eqn:E;
      [rewrite bind_Some in H | rewrite bind_None in H; discriminate H]
  end.

(** Both patterns accept only strings of 36 code units. *)
Lemma uuidRegex_length (r : Zod.Release) (s : Js.str) :
  Zod.uuidRegex r s = true -> length s = 36%nat.
Proof.
  destruct r; simpl.
  - unfold Zod.uuidRegex_before_3_22. intros [H|H]%orb_true_iff.
    + do 9 pattern_step H.
      destruct (Zod.run Zod.isHex 12 _) eqn:E9; [|discriminate H].
      apply atEnd_nil in H. subst.
      repeat match goal with
             | E : Zod.run _ _ _ = Some _ |- _ => apply run_length in E
             | E : Zod.dash _ = Some _ |- _ => apply dash_length in E
             end.
      simpl in *. lia.
    + apply bool_decide_eq_true in H. subst s. reflexivity.
  - unfold Zod.uuidRegex_since_3_22. intros H.
    do 8 pattern_step H.
    destruct (Zod.run Zod.isHex 12 _) eqn:E9; [|discriminate H].
    apply atEnd_nil in H. subst.
    repeat match goal with
           | E : Zod.run _ _ _ = Some _ |- _ => apply run_length in E
           | E : Zod.dash _ = Some _ |- _ => apply dash_length in E
           end.
    simpl in *. lia.
Qed.

Lemma isHex_hexDigit (d : Z) :
  0 <= d < 16 -> Zod.isHex (Uuid.hexDigit d) = true.
Proof.
  intros H. destruct d as [|p|p]; [reflexivity| |lia].
  do 4 (destruct p as [p|p|]; try lia; try reflexivity).
Qed.

Lemma byte_high (b : Z) : Uuid.isByte b -> 0 <= b / 16 < 16.
Proof.
  unfold Uuid.isByte. intros H. split.
  - apply Z.div_pos; lia.
  - apply Z.div_lt_upper_bound; lia.
Qed.

Lemma byte_low (b : Z) : 0 <= b mod 16 < 16.
Proof. apply Z.mod_pos_bound. lia. Qed.

(** The two digits of a byte are one step of two in a run of hexadecimal
    digits. *)
Lemma run_byteToHex (n : nat) (b : Z) (s : Js.str) :
  Uuid.isByte b ->
  Zod.run Zod.isHex (S (S n)) (Uuid.byteToHex b ++ s) = Zod.run Zod.isHex n s.
Proof.
  intros H. unfold Uuid.byteToHex. simpl.
  rewrite (isHex_hexDigit (b / 16)) by (apply byte_high; exact H).
  rewrite (isHex_hexDigit (b mod 16)) by apply byte_low.
  reflexivity.
Qed.

Lemma run_done (x : Js.code_unit -> bool) (s : Js.str) : Zod.run x 0 s = Some s.
Proof. reflexivity. Qed.

Lemma dash_lit (s : Js.str) : Zod.dash (Js.lit "-" ++ s) = Some s.
Proof. reflexivity. Qed.

(** The rendering of sixteen bytes matches the later pattern. *)
Lemma unsafeStringify_since_3_22 (arr : list Z) :
  length arr = 16%nat -> Forall Uuid.isByte arr ->
  Zod.uuidRegex_since_3_22 (Uuid.unsafeStringify arr) = true.
Proof.
  intros Hlen Hall.
  assert (Hb : forall i, (i < 16)%nat -> Uuid.isByte (arr !!! i)).
  { intros i Hi. apply (Forall_lookup_total_1 Uuid.isByte arr i Hall). lia. }
  unfold Zod.uuidRegex_since_3_22, Uuid.unsafeStringify, Uuid.hexAt.
  rewrite <- (app_nil_r (Uuid.byteToHex (arr !!! 15%nat))).
  repeat first
    [ rewrite run_byteToHex by (apply Hb; lia)
    | rewrite run_done
    | rewrite bind_Some
    | rewrite dash_lit ].
  reflexivity.
Qed.

Lemma run_version (b : Z) (s : Js.str) :
  b / 16 = 4 ->
  Zod.run Zod.isVersion 1 (Uuid.byteToHex b ++ s) = Some (Uuid.hexDigit (b mod 16) :: s).
Proof. intros H. unfold Uuid.byteToHex. rewrite H. reflexivity. Qed.

Lemma run_hexDigit (n : nat) (d : Z) (s : Js.str) :
  0 <= d < 16 ->
  Zod.run Zod.isHex (S n) (Uuid.hexDigit d :: s) = Zod.run Zod.isHex n s.
Proof. intros H. simpl. rewrite isHex_hexDigit by exact H. reflexivity. Qed.

(** The rendering of sixteen bytes whose seventh byte has 4 as its high
    half matches the earlier pattern. *)
Lemma unsafeStringify_before_3_22 (arr : list Z) :
  length arr = 16%nat -> Forall Uuid.isByte arr -> (arr !!! 6%nat) / 16 = 4 ->
  Zod.uuidRegex_before_3_22 (Uuid.unsafeStringify arr) = true.
Proof.
  intros Hlen Hall Hver.
  assert (Hb : forall i, (i < 16)%nat -> Uuid.isByte (arr !!! i)).
  { intros i Hi. apply (Forall_lookup_total_1 Uuid.isByte arr i Hall). lia. }
  unfold Zod.uuidRegex_before_3_22, Uuid.unsafeStringify, Uuid.hexAt.
  rewrite <- (app_nil_r (Uuid.byteToHex (arr !!! 15%nat))).
  apply orb_true_iff. left.
  repeat first
    [ rewrite run_byteToHex by (apply Hb; lia)
    | rewrite run_version by exact Hver
    | rewrite run_hexDigit by apply byte_low
    | rewrite run_done
    | rewrite bind_Some
    | rewrite dash_lit ].
  reflexivity.
Qed.

(** A check that holds of each of the 256 bytes holds of every byte. *)
Lemma byte_cases (P : Z -> bool) :
  forallb P (map Z.of_nat (seq 0 256)) = true ->
  forall b, Uuid.isByte b -> P b = true.
Proof.
  intros H b Hb. rewrite forallb_forall in H. apply H.
  rewrite <- (Z2Nat.id b) by apply Hb.
  apply in_map, in_seq. unfold Uuid.isByte in Hb. lia.
Qed.

(** [(b & 0x0f) | 0x40] is a byte whose high half is 4. *)
Lemma version_bits (b : Z) :
  Uuid.isByte b ->
  Uuid.isByte (Z.lor (Z.land b 15) 64) /\ Z.lor (Z.land b 15) 64 / 16 = 4.
Proof.
  intros Hb.
  pose proof (byte_cases
    (fun b => let v := Z.lor (Z.land b 15) 64 in
              (0 <=? v) && (v <? 256) && (v / 16 =? 4))) as H.
  specialize (H eq_refl b Hb). simpl in H.
  apply andb_true_iff in H as [[H1 H2]%andb_true_iff H3].
  unfold Uuid.isByte. lia.
Qed.

(** [(b & 0x3f) | 0x80] is a byte. *)
Lemma variant_bits (b : Z) :
  Uuid.isByte b -> Uuid.isByte (Z.lor (Z.land b 63) 128).
Proof.
  intros Hb.
  pose proof (byte_cases
    (fun b => let v := Z.lor (Z.land b 63) 128 in (0 <=? v) && (v <? 256))) as H.
  specialize (H eq_refl b Hb). simpl in H.
  apply andb_true_iff in H as [H1 H2].
  unfold Uuid.isByte. lia.
Qed.

(** Every identifier [v4] makes matches the pattern of either release. *)
Lemma v4_uuid (r : Zod.Release) (rnds : list Z) :
  Uuid.isRandomBytes rnds -> Zod.uuidRegex r (Uuid.v4 rnds) = true.
Proof.
  intros [Hlen Hall]. unfold Uuid.v4.
  assert (H6 : Uuid.isByte (rnds !!! 6%nat)).
  { apply (Forall_lookup_total_1 Uuid.isByte rnds 6 Hall). lia. }
  destruct (version_bits _ H6) as [Hv6 Hv4].
  set (arr1 := <[6%nat := _]> rnds) in *.
  assert (Hlen1 : length arr1 = 16%nat) by (unfold arr1; rewrite length_insert; exact Hlen).
  assert (Hall1 : Forall Uuid.isByte arr1) by (apply Forall_insert; assumption).
  assert (H8 : Uuid.isByte (arr1 !!! 8%nat)).
  { apply (Forall_lookup_total_1 Uuid.isByte arr1 8 Hall1). lia. }
  pose proof (variant_bits _ H8) as Hv8.
  set (arr2 := <[8%nat := _]> arr1).
  assert (Hlen2 : length arr2 = 16%nat) by (unfold arr2; rewrite length_insert; exact Hlen1).
  assert (Hall2 : Forall Uuid.isByte arr2) by (apply Forall_insert; assumption).
  destruct r; simpl.
  - apply unsafeStringify_before_3_22; [assumption..|].
    unfold arr2. rewrite list_lookup_total_insert_ne by lia.
    unfold arr1. rewrite list_lookup_total_insert_eq by lia.
    exact Hv4.
  - apply unsafeStringify_since_3_22; assumption.
Qed.

(** ** The formats of the source *)

(** [userIdFormat.safeParse(v)]: a string the pattern matches comes back as
    it is; any other value is refused. *)
Lemma safeParse_userId (r : Zod.Release) (v : Js.value) :
  Zod.safeParseString r userIdFormat v =
  match v with
  | Js.VStr s =>
      if Zod.uuidRegex r s then Zod.success s
      else Zod.failure (oneIssue Zod.invalid_string_uuid [])
  | _ => Zod.failure (oneIssue (Zod.invalid_type Zod.string_ (Zod.getParsedType v)) [])
  end.
Proof.
  destruct v; try reflexivity.
  unfold Zod.safeParseString, Zod.ZodString_parse, userIdFormat. simpl.
  destruct (Zod.uuidRegex r s); reflexivity.
Qed.

(** [projectNameFormat] at path [at_]: the string trimmed, refused when
    nothing is left. *)
Lemma parse_projectName (r : Zod.Release) (at_ : list Js.str) (v : Js.value) :
  Zod.ZodString_parse r projectNameFormat at_ v =
  match v with
  | Js.VStr s =>
      match Js.trim s with
      | [] => (Zod.DIRTY [], [issue (Zod.too_small 1) at_])
      | _ :: _ => (Zod.OK (Js.trim s), [])
      end
  | _ => (Zod.INVALID, [issue (Zod.invalid_type Zod.string_ (Zod.getParsedType v)) at_])
  end.
Proof.
  destruct v; try reflexivity.
  unfold Zod.ZodString_parse, projectNameFormat. simpl.
  destruct (Js.trim s) as [|c t]; [reflexivity|].
  simpl length. destruct (Z.ltb_spec (Z.of_nat (S (length t))) 1); [lia|reflexivity].
Qed.

(** [CreateProjectRequest.safeParse(body)]. *)
Lemma safeParse_request (r : Zod.Release) (body : Js.value) :
  Zod.safeParseObject r CreateProjectRequest body =
  match body with
  | Js.VObj m =>
      match m !! Js.lit "name" with
      | Some (Js.VStr s) =>
          match Js.trim s with
          | [] => Zod.failure (oneIssue (Zod.too_small 1) [Js.lit "name"])
          | _ :: _ => Zod.success {[ Js.lit "name" := Js.VStr (Js.trim s) ]}
          end
      | other =>
          Zod.failure
            (oneIssue
               (Zod.invalid_type Zod.string_
                  (Zod.getParsedType (default Js.VUndefined other)))
               [Js.lit "name"])
      end
  | _ => Zod.failure (oneIssue (Zod.invalid_type Zod.object_ (Zod.getParsedType body)) [])
  end.
Proof.
  destruct body; try reflexivity.
  unfold Zod.safeParseObject, Zod.ZodObject_parse, CreateProjectRequest, Zod.parsePairs.
  rewrite parse_projectName.
  destruct (m !! Js.lit "name") as [[| | | |s| |]|]; try reflexivity.
  simpl. destruct (Js.trim s); reflexivity.
Qed.

(** ** The service and the handler, case by case *)

Lemma toLowerCase_Authorization :
  Js.toLowerCase (Js.lit "Authorization") = Js.lit "authorization".
Proof. reflexivity. Qed.

Lemma run_bind {A B} (m : Run A) (k : A -> Run B) (w : World) :
  (m ≫= k) w =
  match m w with
  | (Normal a, w') => k a w'
  | (Throw error, w') => (Throw error, w')
  end.
Proof. reflexivity. Qed.

Lemma run_ret {A} (a : A) (w : World) : (mret a : Run A) w = (Normal a, w).
Proof. reflexivity. Qed.

Lemma run_enter {A} (c : Call) (k : Run A) (w : World) :
  (enter c;; k) w = k (entering c w).
Proof. reflexivity. Qed.

(** Running binds, returns and entries step by step. *)
Ltac run_steps :=
  repeat first
    [ rewrite run_enter | rewrite run_ret | rewrite run_bind
    | progress cbv beta iota ].

(** [createProject]: below the threshold the caller is not found; otherwise
    the identifier [v4] made is parsed and the project is built. *)
Lemma createProject_run (r : Zod.Release) (d : Draws) (userId : Js.str)
  (request : gmap Js.str Js.value) (w : World) :
  createProject r d userId request w =
  if Qltb (Math_random d) literal_0_3 then
    (Normal (UserNotFound userId), entering in_createProject w)
  else
    match Zod.safeParseString r projectIdFormat (Js.VStr (Uuid.v4 (rnds d))) with
    | Zod.success id =>
        (Normal (Created (projectOf id userId request)), entering in_createProject w)
    | Zod.failure error => (Throw error, entering in_createProject w)
    end.
Proof.
  unfold createProject, parse.
  destruct (Qltb _ _); [reflexivity|].
  destruct (Zod.safeParseString _ _ _); reflexivity.
Qed.

(** The handler on any request and any draws. *)
Lemma post_run (r : Zod.Release) (d : Draws) (req : Express.Request) :
  post r d req start =
  match Zod.safeParseObject r CreateProjectRequest (Express.body req) with
  | Zod.failure error =>
      (Normal tt, world 400 [Express.Stringified error] [in_entityAs])
  | Zod.success request =>
      match Express.headers req !! Js.lit "authorization" with
      | None =>
          (Normal tt,
           world 400 [Express.Value no_header_Authorization]
             [in_entityAs; in_headerValueByName])
      | Some token =>
          match Zod.safeParseString r userIdFormat (Express.headerValue token) with
          | Zod.failure error =>
              (Throw error,
               world 200 [] [in_entityAs; in_headerValueByName; in_completeAsJson])
          | Zod.success userId =>
              match
                createProject r d userId request
                  (world 200 [] [in_entityAs; in_headerValueByName; in_completeAsJson])
              with
              | (Normal (Created project), _) =>
                  (Normal tt, world 201 [Express.Value (Js.VObj project)] stages)
              | (Normal (UserNotFound _), _) =>
                  (Normal tt, world 404 [Express.Value (Js.VStr sry_no_user_found)] stages)
              | (Throw error, _) => (Throw error, world 200 [] stages)
              end
          end
      end
  end.
Proof.
  unfold post, entityAs. rewrite run_enter.
  destruct (Zod.safeParseObject _ _ _) as [request|error]; [|reflexivity].
  unfold headerValueByName. rewrite toLowerCase_Authorization, run_enter.
  destruct (Express.headers req !! Js.lit "authorization") as [token|]; [|reflexivity].
  unfold completeAsJson, outcome, parse. rewrite run_enter.
  destruct (Zod.safeParseString _ _ _) as [userId|error]; [|reflexivity].
  run_steps. rewrite !createProject_run.
  destruct (Qltb _ _); [reflexivity|].
  destruct (Zod.safeParseString _ _ _); reflexivity.
Qed.

Lemma Qltb_lt (x y : Q) : Qltb x y = true <-> Qlt x y.
Proof. unfold Qltb, Qlt. apply Z.ltb_lt. Qed.

(** On the grid of multiples of 2^-53 that a 53-bit random source draws
    from, being below the double [0.3] is being below three tenths. *)
Lemma literal_0_3_on_grid (k : Z) :
  0 <= k < 2 ^ 53 ->
  Qlt (k # 9007199254740992) literal_0_3 <-> Qlt (k # 9007199254740992) (3 # 10).
Proof. intros H. unfold Qlt, literal_0_3. simpl. lia. Qed.

Lemma projectIdFormat_v4 (r : Zod.Release) (rnds : list Z) :
  Uuid.isRandomBytes rnds ->
  Zod.safeParseString r projectIdFormat (Js.VStr (Uuid.v4 rnds)) = Zod.success (Uuid.v4 rnds).
Proof.
  intros H. change projectIdFormat with userIdFormat.
  rewrite safeParse_userId, v4_uuid by exact H. reflexivity.
Qed.

Ltac lit_neq := let H := fresh in intros H; vm_compute in H; discriminate H.

Lemma projectOf_id (id userId : Js.str) (request : gmap Js.str Js.value) :
  projectOf id userId request !! Js.lit "id" = Some (Js.VStr id).
Proof. unfold projectOf. apply lookup_insert_eq. Qed.

Lemma projectOf_userId (id userId : Js.str) (request : gmap Js.str Js.value) :
  projectOf id userId request !! Js.lit "userId" = Some (Js.VStr userId).
Proof.
  unfold projectOf. rewrite lookup_insert_ne by lit_neq. apply lookup_insert_eq.
Qed.

Lemma projectOf_name (id userId : Js.str) (request : gmap Js.str Js.value) :
  projectOf id userId request !! Js.lit "name" = request !! Js.lit "name".
Proof.
  unfold projectOf. rewrite !lookup_insert_ne by lit_neq. reflexivity.
Qed.

(** ** The claims *)

(** C6. For every caller identity and every request object, with sixteen
    random bytes for [v4]: when the draw of [Math.random()] is below the
    literal [0.3], [createProject] returns [UserNotFound] carrying the given
    caller identity; otherwise it returns [Created] with a project whose
    [userId] is the given caller identity, whose [name] is the request's
    [name] and whose [id] is the identifier [v4] made from the bytes, which
    matches the uuid pattern. *)
Theorem createProject_outcome (r : Zod.Release) (d : Draws) (userId : Js.str)
  (request : gmap Js.str Js.value) (w : World) :
  Uuid.isRandomBytes (rnds d) ->
  (Qlt (Math_random d) literal_0_3 ->
   createProject r d userId request w =
   (Normal (UserNotFound userId), entering in_createProject w)) /\
  (~ Qlt (Math_random d) literal_0_3 ->
   exists project,
     createProject r d userId request w =
     (Normal (Created project), entering in_createProject w) /\
     project !! Js.lit "userId" = Some (Js.VStr userId) /\
     project !! Js.lit "name" = request !! Js.lit "name" /\
     project !! Js.lit "id" = Some (Js.VStr (Uuid.v4 (rnds d))) /\
     Zod.uuidRegex r (Uuid.v4 (rnds d)) = true).
Proof.
  intros Hrnds. rewrite createProject_run. split.
  - intros Hlt%Qltb_lt. rewrite Hlt. reflexivity.
  - intros Hge. destruct (Qltb _ _) eqn:E; [apply Qltb_lt in E; contradiction|].
    rewrite projectIdFormat_v4 by exact Hrnds.
    eexists. split; [reflexivity|].
    rewrite projectOf_userId, projectOf_name, projectOf_id.
    repeat split. apply v4_uuid. exact Hrnds.
Qed.

Lemma bytes_random : Uuid.isRandomBytes bytes.
Proof.
  split; [reflexivity|].
  unfold bytes. repeat constructor; unfold Z.le; simpl; discriminate.
Defined.

Lemma createProject_outcome_witness :
  Uuid.isRandomBytes (rnds high) /\
  ~ Qlt (Math_random high) literal_0_3 /\
  exists project,
    createProject Zod.since_3_22 high caller ({[ Js.lit "name" := Js.VStr (Js.lit "Demo") ]}) start =
    (Normal (Created project), entering in_createProject start) /\
    project !! Js.lit "userId" = Some (Js.VStr caller) /\
    project !! Js.lit "name" =
      ({[ Js.lit "name" := Js.VStr (Js.lit "Demo") ]} : gmap Js.str Js.value) !! Js.lit "name" /\
    project !! Js.lit "id" = Some (Js.VStr (Uuid.v4 (rnds high))) /\
    Zod.uuidRegex Zod.since_3_22 (Uuid.v4 (rnds high)) = true.
Proof.
  assert (Hge : ~ Qlt (Math_random high) literal_0_3).
  { unfold Qlt. simpl. lia. }
  split; [exact bytes_random|]. split; [exact Hge|].
  exact (proj2 (createProject_outcome Zod.since_3_22 high caller _ start bytes_random) Hge).
Defined.

(** C9. The identifier [v4] makes from any sixteen random bytes matches the
    uuid pattern of either release of zod, so [projectIdFormat.parse(v4())]
    returns it and never throws, and [createProject] returns a response
    for every caller identity and request. *)
Theorem createProject_total (r : Zod.Release) (d : Draws) (userId : Js.str)
  (request : gmap Js.str Js.value) (w : World) :
  Uuid.isRandomBytes (rnds d) ->
  Zod.uuidRegex r (Uuid.v4 (rnds d)) = true /\
  parse r projectIdFormat (Js.VStr (Uuid.v4 (rnds d))) w = (Normal (Uuid.v4 (rnds d)), w) /\
  exists response,
    createProject r d userId request w = (Normal response, entering in_createProject w).
Proof.
  intros Hrnds. split; [apply v4_uuid; exact Hrnds|]. split.
  - unfold parse. rewrite projectIdFormat_v4 by exact Hrnds. reflexivity.
  - rewrite createProject_run, projectIdFormat_v4 by exact Hrnds.
    destruct (Qltb _ _); eexists; reflexivity.
Qed.

Lemma createProject_total_witness :
  Uuid.isRandomBytes (rnds low) /\
  Zod.uuidRegex Zod.before_3_22 (Uuid.v4 (rnds low)) = true /\
  parse Zod.before_3_22 projectIdFormat (Js.VStr (Uuid.v4 (rnds low))) start =
    (Normal (Uuid.v4 (rnds low)), start) /\
  exists response,
    createProject Zod.before_3_22 low caller ∅ start =
    (Normal response, entering in_createProject start).
Proof.
  split; [exact bytes_random|].
  exact (createProject_total Zod.before_3_22 low caller ∅ start bytes_random).
Defined.

(** What a successful parse of the body says about the body. *)
Lemma safeParse_request_success (r : Zod.Release) (body : Js.value)
  (request : gmap Js.str Js.value) :
  Zod.safeParseObject r CreateProjectRequest body = Zod.success request ->
  exists m s,
    body = Js.VObj m /\ m !! Js.lit "name" = Some (Js.VStr s) /\
    Js.trim s <> [] /\ request = {[ Js.lit "name" := Js.VStr (Js.trim s) ]}.
Proof.
  rewrite safeParse_request.
  destruct body as [| | | | | |m]; try discriminate.
  destruct (m !! Js.lit "name") as [[| | | |s| |]|] eqn:Hm; try discriminate.
  destruct (Js.trim s) as [|c t] eqn:E; [discriminate|].
  intros [= <-]. exists m, s. rewrite E.
  split; [reflexivity|]. split; [exact Hm|]. split; [discriminate|reflexivity].
Qed.

Lemma safeParse_request_valid (r : Zod.Release) (m : gmap Js.str Js.value) (s : Js.str) :
  m !! Js.lit "name" = Some (Js.VStr s) -> Js.trim s <> [] ->
  Zod.safeParseObject r CreateProjectRequest (Js.VObj m) =
  Zod.success {[ Js.lit "name" := Js.VStr (Js.trim s) ]}.
Proof.
  intros Hm Hs. rewrite safeParse_request, Hm.
  destruct (Js.trim s); [contradiction|reflexivity].
Qed.

(** The completion of [createProject] does not depend on the state. *)
Lemma createProject_completion (r : Zod.Release) (d : Draws) (userId : Js.str)
  (request : gmap Js.str Js.value) (w w' : World) :
  fst (createProject r d userId request w) = fst (createProject r d userId request w').
Proof.
  rewrite !createProject_run.
  destruct (Qltb _ _); [reflexivity|].
  destruct (Zod.safeParseString _ _ _); reflexivity.
Qed.

(** A project [createProject] returns is built from the request, the caller
    and an identifier that matches the pattern. *)
Lemma createProject_created (r : Zod.Release) (d : Draws) (userId : Js.str)
  (request project : gmap Js.str Js.value) (w : World) :
  fst (createProject r d userId request w) = Normal (Created project) ->
  exists id, Zod.uuidRegex r id = true /\ project = projectOf id userId request.
Proof.
  rewrite createProject_run.
  destruct (Qltb _ _); [discriminate|].
  change projectIdFormat with userIdFormat. rewrite safeParse_userId.
  destruct (Zod.uuidRegex r _) eqn:E; [|discriminate].
  intros [= <-]. eexists. split; [exact E|reflexivity].
Qed.

(** The handler once the body and the caller identity have parsed. *)
Lemma post_identified (r : Zod.Release) (d : Draws) (req : Express.Request)
  (request : gmap Js.str Js.value) (token : Express.IncomingHeader) (userId : Js.str)
  (w : World) :
  Zod.safeParseObject r CreateProjectRequest (Express.body req) = Zod.success request ->
  Express.headers req !! Js.lit "authorization" = Some token ->
  Zod.safeParseString r userIdFormat (Express.headerValue token) = Zod.success userId ->
  post r d req start =
  match fst (createProject r d userId request w) with
  | Normal (Created project) =>
      (Normal tt, world 201 [Express.Value (Js.VObj project)] stages)
  | Normal (UserNotFound _) =>
      (Normal tt, world 404 [Express.Value (Js.VStr sry_no_user_found)] stages)
  | Throw error => (Throw error, world 200 [] stages)
  end.
Proof.
  intros Hbody Hheader Hid. rewrite post_run, Hbody, Hheader, Hid.
  rewrite (createProject_completion r d userId request w
             (world 200 [] [in_entityAs; in_headerValueByName; in_completeAsJson])).
  destruct (createProject r d userId request _) as [[[project|u]|error] w']; reflexivity.
Qed.

(** The handler when the caller identity does not parse. *)
Lemma post_unidentified (r : Zod.Release) (d : Draws) (req : Express.Request)
  (request : gmap Js.str Js.value) (token : Express.IncomingHeader)
  (error : Zod.ZodError) :
  Zod.safeParseObject r CreateProjectRequest (Express.body req) = Zod.success request ->
  Express.headers req !! Js.lit "authorization" = Some token ->
  Zod.safeParseString r userIdFormat (Express.headerValue token) = Zod.failure error ->
  (forall w, outcome r d token request w = (Throw error, w)) /\
  post r d req start =
  (Throw error, world 200 [] [in_entityAs; in_headerValueByName; in_completeAsJson]).
Proof.
  intros Hbody Hheader Hid. split.
  - intros w. unfold outcome, parse. rewrite Hid. reflexivity.
  - rewrite post_run, Hbody, Hheader, Hid. reflexivity.
Qed.

(** C1, as amended. For every request whose body parses against the
    [CreateProjectRequest] shape and whose [Authorization] header is one
    string matching the uuid pattern, when [createProject] returns
    [Created], the handler returns with status 201 and the created project
    as the one body sent; the project's [name] is the submitted name
    trimmed of white space at both ends, its [userId] is the header value,
    and its [id] and [userId] match the uuid pattern. *)
Theorem post_created (r : Zod.Release) (d : Draws) (req : Express.Request)
  (m request project : gmap Js.str Js.value) (submitted token : Js.str) (w : World) :
  Express.body req = Js.VObj m ->
  m !! Js.lit "name" = Some (Js.VStr submitted) ->
  Zod.safeParseObject r CreateProjectRequest (Express.body req) = Zod.success request ->
  Express.headers req !! Js.lit "authorization" = Some (Express.One token) ->
  Zod.uuidRegex r token = true ->
  fst (createProject r d token request w) = Normal (Created project) ->
  post r d req start = (Normal tt, world 201 [Express.Value (Js.VObj project)] stages) /\
  project !! Js.lit "name" = Some (Js.VStr (Js.trim submitted)) /\
  project !! Js.lit "userId" = Some (Js.VStr token) /\
  (exists id, project !! Js.lit "id" = Some (Js.VStr id) /\ Zod.uuidRegex r id = true) /\
  Zod.uuidRegex r token = true.
Proof.
  intros Hbody Hname Hparse Hheader Huuid Hcreated.
  assert (Hid : Zod.safeParseString r userIdFormat (Express.headerValue (Express.One token))
                = Zod.success token).
  { rewrite safeParse_userId. simpl. rewrite Huuid. reflexivity. }
  split.
  - rewrite (post_identified r d req request _ token w Hparse Hheader Hid), Hcreated.
    reflexivity.
  - destruct (safeParse_request_success _ _ _ Hparse) as (m' & s & Hm' & Hs & _ & ->).
    rewrite Hbody in Hm'. injection Hm' as <-.
    rewrite Hname in Hs. injection Hs as <-.
    destruct (createProject_created _ _ _ _ _ _ Hcreated) as (id & Hid' & ->).
    rewrite projectOf_name, projectOf_userId, projectOf_id, lookup_singleton_eq.
    repeat split; [|exact Huuid]. exists id. split; [reflexivity|exact Hid'].
Qed.

Lemma post_created_witness :
  (Express.body demo = named "Demo" /\
   (({[ Js.lit "name" := Js.VStr (Js.lit "Demo") ]} : gmap Js.str Js.value) !! Js.lit "name"
    = Some (Js.VStr (Js.lit "Demo"))) /\
   Zod.safeParseObject Zod.since_3_22 CreateProjectRequest (Express.body demo) =
     Zod.success {[ Js.lit "name" := Js.VStr (Js.lit "Demo") ]} /\
   Express.headers demo !! Js.lit "authorization" = Some (Express.One caller) /\
   Zod.uuidRegex Zod.since_3_22 caller = true /\
   fst (createProject Zod.since_3_22 high caller
          {[ Js.lit "name" := Js.VStr (Js.lit "Demo") ]} start) =
     Normal (Created (projectOf (Uuid.v4 bytes) caller
                        {[ Js.lit "name" := Js.VStr (Js.lit "Demo") ]}))) /\
  post Zod.since_3_22 high demo start =
    (Normal tt,
     world 201
       [Express.Value
          (Js.VObj (projectOf (Uuid.v4 bytes) caller
                      {[ Js.lit "name" := Js.VStr (Js.lit "Demo") ]}))]
       stages).
Proof.
  assert (H1 : Express.body demo = named "Demo") by reflexivity.
  assert (H2 : ({[ Js.lit "name" := Js.VStr (Js.lit "Demo") ]} : gmap Js.str Js.value)
               !! Js.lit "name" = Some (Js.VStr (Js.lit "Demo"))) by reflexivity.
  assert (H3 : Zod.safeParseObject Zod.since_3_22 CreateProjectRequest (Express.body demo) =
               Zod.success {[ Js.lit "name" := Js.VStr (Js.lit "Demo") ]})
    by (vm_compute; reflexivity).
  assert (H4 : Express.headers demo !! Js.lit "authorization" = Some (Express.One caller))
    by reflexivity.
  assert (H5 : Zod.uuidRegex Zod.since_3_22 caller = true) by reflexivity.
  assert (H6 : fst (createProject Zod.since_3_22 high caller
                      {[ Js.lit "name" := Js.VStr (Js.lit "Demo") ]} start) =
               Normal (Created (projectOf (Uuid.v4 bytes) caller
                                  {[ Js.lit "name" := Js.VStr (Js.lit "Demo") ]})))
    by (vm_compute; reflexivity).
  split; [repeat split; assumption|].
  exact (proj1 (post_created Zod.since_3_22 high demo _ _ _ _ _ start H1 H2 H3 H4 H5 H6)).
Defined.

(** C1, as stated, fails on [{"name":" Demo "}]: the body parses, the header
    is a uuid, [createProject] returns [Created] and the response is 201,
    yet the [name] of the project sent is ["Demo"], not the submitted
    [" Demo "]. *)
Lemma post_created_submitted_name_counterexample :
  Express.body padded = Js.VObj {[ Js.lit "name" := Js.VStr (Js.lit " Demo ") ]} /\
  Zod.safeParseObject Zod.since_3_22 CreateProjectRequest (Express.body padded) =
    Zod.success {[ Js.lit "name" := Js.VStr (Js.lit "Demo") ]} /\
  Express.headers padded !! Js.lit "authorization" = Some (Express.One caller) /\
  Zod.uuidRegex Zod.since_3_22 caller = true /\
  fst (createProject Zod.since_3_22 high caller
         {[ Js.lit "name" := Js.VStr (Js.lit "Demo") ]} start) =
    Normal (Created (projectOf (Uuid.v4 bytes) caller
                       {[ Js.lit "name" := Js.VStr (Js.lit "Demo") ]})) /\
  post Zod.since_3_22 high padded start =
    (Normal tt,
     world 201
       [Express.Value
          (Js.VObj (projectOf (Uuid.v4 bytes) caller
                      {[ Js.lit "name" := Js.VStr (Js.lit "Demo") ]}))]
       stages) /\
  projectOf (Uuid.v4 bytes) caller {[ Js.lit "name" := Js.VStr (Js.lit "Demo") ]}
    !! Js.lit "name" <> Some (Js.VStr (Js.lit " Demo ")).
Proof.
  repeat split; try (vm_compute; reflexivity).
  rewrite projectOf_name, lookup_singleton_eq. intros H. vm_compute in H. discriminate H.
Qed.

(** C2, as amended. For every request lacking an [Authorization] header
    the handler returns with status 400 and one body sent, without entering
    [createProject]: the body is the text ["No header Authorization"] when
    the request body passes validation, and the rendered validation error
    when it does not. *)
Theorem post_no_header (r : Zod.Release) (d : Draws) (req : Express.Request) :
  Express.headers req !! Js.lit "authorization" = None ->
  exists payload calls,
    post r d req start = (Normal tt, world 400 [payload] calls) /\
    (in_createProject ∉ calls) /\
    payload =
      match Zod.safeParseObject r CreateProjectRequest (Express.body req) with
      | Zod.success _ => Express.Value no_header_Authorization
      | Zod.failure error => Express.Stringified error
      end.
Proof.
  intros Hheader. rewrite post_run, Hheader.
  destruct (Zod.safeParseObject _ _ _) as [request|error];
    eexists _, _; (split; [reflexivity|]); (split; [|reflexivity]);
    rewrite !not_elem_of_cons; repeat split; try discriminate; apply not_elem_of_nil.
Qed.

Lemma post_no_header_witness :
  Express.headers anonymous !! Js.lit "authorization" = None /\
  exists payload calls,
    post Zod.since_3_22 low anonymous start = (Normal tt, world 400 [payload] calls) /\
    (in_createProject ∉ calls) /\
    payload =
      match Zod.safeParseObject Zod.since_3_22 CreateProjectRequest (Express.body anonymous) with
      | Zod.success _ => Express.Value no_header_Authorization
      | Zod.failure error => Express.Stringified error
      end.
Proof.
  split; [reflexivity|].
  apply (post_no_header Zod.since_3_22 low anonymous). reflexivity.
Defined.

(** C2, as stated, fails on [{}] sent without header: the response is 400,
    but its body is the rendered validation error, not the text
    ["No header Authorization"]. *)
Lemma post_no_header_any_body_counterexample :
  Express.headers bare !! Js.lit "authorization" = None /\
  post Zod.since_3_22 low bare start =
    (Normal tt,
     world 400
       [Express.Stringified
          (oneIssue (Zod.invalid_type Zod.string_ Zod.undefined_) [Js.lit "name"])]
       [in_entityAs]) /\
  Express.Stringified
    (oneIssue (Zod.invalid_type Zod.string_ Zod.undefined_) [Js.lit "name"])
  <> Express.Value no_header_Authorization.
Proof.
  split; [reflexivity|]. split; [vm_compute; reflexivity|]. discriminate.
Qed.

(** C3. For every request whose body passes validation and whose
    [Authorization] header is present with a value that is not one string
    matching the uuid pattern, the function handed to [completeAsJson]
    throws, and the handler throws the same error with nothing written to
    the response: the status was not set and nothing was sent. *)
Theorem post_identity_not_caught (r : Zod.Release) (d : Draws) (req : Express.Request)
  (request : gmap Js.str Js.value) (token : Express.IncomingHeader) :
  Zod.safeParseObject r CreateProjectRequest (Express.body req) = Zod.success request ->
  Express.headers req !! Js.lit "authorization" = Some token ->
  (forall s, token = Express.One s -> Zod.uuidRegex r s = false) ->
  exists error,
    (forall w, outcome r d token request w = (Throw error, w)) /\
    post r d req start =
    (Throw error, world 200 [] [in_entityAs; in_headerValueByName; in_completeAsJson]) /\
    res (snd (post r d req start)) = Express.fresh.
Proof.
  intros Hbody Hheader Hbad.
  assert (Hid : exists error,
             Zod.safeParseString r userIdFormat (Express.headerValue token)
             = Zod.failure error).
  { rewrite safeParse_userId. destruct token as [s|l]; simpl.
    - rewrite (Hbad s eq_refl). eexists. reflexivity.
    - eexists. reflexivity. }
  destruct Hid as [error Hid]. exists error.
  destruct (post_unidentified r d req request token error Hbody Hheader Hid) as [Hout Hpost].
  split; [exact Hout|]. split; [exact Hpost|]. rewrite Hpost. reflexivity.
Qed.

Lemma post_identity_not_caught_witness :
  (Zod.safeParseObject Zod.since_3_22 CreateProjectRequest (Express.body garbled) =
     Zod.success {[ Js.lit "name" := Js.VStr (Js.lit "Demo") ]} /\
   Express.headers garbled !! Js.lit "authorization" =
     Some (Express.One (Js.lit "Bearer abc")) /\
   (forall s, Express.One (Js.lit "Bearer abc") = Express.One s ->
              Zod.uuidRegex Zod.since_3_22 s = false)) /\
  exists error,
    (forall w, outcome Zod.since_3_22 high (Express.One (Js.lit "Bearer abc"))
                 {[ Js.lit "name" := Js.VStr (Js.lit "Demo") ]} w = (Throw error, w)) /\
    post Zod.since_3_22 high garbled start =
    (Throw error, world 200 [] [in_entityAs; in_headerValueByName; in_completeAsJson]) /\
    res (snd (post Zod.since_3_22 high garbled start)) = Express.fresh.
Proof.
  assert (H1 : Zod.safeParseObject Zod.since_3_22 CreateProjectRequest (Express.body garbled) =
               Zod.success {[ Js.lit "name" := Js.VStr (Js.lit "Demo") ]})
    by (vm_compute; reflexivity).
  assert (H2 : Express.headers garbled !! Js.lit "authorization" =
               Some (Express.One (Js.lit "Bearer abc"))) by reflexivity.
  assert (H3 : forall s, Express.One (Js.lit "Bearer abc") = Express.One s ->
                         Zod.uuidRegex Zod.since_3_22 s = false).
  { intros s [= <-]. reflexivity. }
  split; [repeat split; assumption|].
  exact (post_identity_not_caught Zod.since_3_22 high garbled _ _ H1 H2 H3).
Defined.

(** C10. When the [Authorization] header is an array of strings, whatever
    its elements, the parse of the caller identity fails, so the handler
    throws with nothing written to the response: no 201 and no 404. *)
Theorem post_header_array (r : Zod.Release) (d : Draws) (req : Express.Request)
  (request : gmap Js.str Js.value) (l : list Js.str) :
  Zod.safeParseObject r CreateProjectRequest (Express.body req) = Zod.success request ->
  Express.headers req !! Js.lit "authorization" = Some (Express.Many l) ->
  Zod.safeParseString r userIdFormat (Express.headerValue (Express.Many l)) =
    Zod.failure (oneIssue (Zod.invalid_type Zod.string_ Zod.array_) []) /\
  post r d req start =
    (Throw (oneIssue (Zod.invalid_type Zod.string_ Zod.array_) []),
     world 200 [] [in_entityAs; in_headerValueByName; in_completeAsJson]) /\
  Express.statusCode (res (snd (post r d req start))) = 200 /\
  Express.sent (res (snd (post r d req start))) = [].
Proof.
  intros Hbody Hheader.
  assert (Hid : Zod.safeParseString r userIdFormat (Express.headerValue (Express.Many l)) =
                Zod.failure (oneIssue (Zod.invalid_type Zod.string_ Zod.array_) []))
    by (rewrite safeParse_userId; reflexivity).
  destruct (post_unidentified r d req request _ _ Hbody Hheader Hid) as [_ Hpost].
  rewrite Hpost. split; [exact Hid|]. repeat split.
Qed.

Lemma post_header_array_witness :
  (Zod.safeParseObject Zod.since_3_22 CreateProjectRequest (Express.body repeated) =
     Zod.success {[ Js.lit "name" := Js.VStr (Js.lit "Demo") ]} /\
   Express.headers repeated !! Js.lit "authorization" =
     Some (Express.Many [caller; caller])) /\
  post Zod.since_3_22 high repeated start =
    (Throw (oneIssue (Zod.invalid_type Zod.string_ Zod.array_) []),
     world 200 [] [in_entityAs; in_headerValueByName; in_completeAsJson]).
Proof.
  assert (H1 : Zod.safeParseObject Zod.since_3_22 CreateProjectRequest (Express.body repeated) =
               Zod.success {[ Js.lit "name" := Js.VStr (Js.lit "Demo") ]})
    by (vm_compute; reflexivity).
  assert (H2 : Express.headers repeated !! Js.lit "authorization" =
               Some (Express.Many [caller; caller])) by reflexivity.
  split; [split; assumption|].
  exact (proj1 (proj2 (post_header_array Zod.since_3_22 high repeated _ _ H1 H2))).
Defined.

(** [entityAs] on any shape, continuation and state. *)
Lemma entityAs_run (r : Zod.Release) (object : Zod.ZodRawShape)
  (result : gmap Js.str Js.value -> RequestHandler) (req : Express.Request) (w : World) :
  entityAs r object result req w =
  match Zod.safeParseObject r object (Express.body req) with
  | Zod.success data => result data req (entering in_entityAs w)
  | Zod.failure error =>
      (Normal tt,
       world 400 (Express.sent (res w) ++ [Express.Stringified error])
         (entered w ++ [in_entityAs]))
  end.
Proof.
  unfold entityAs. rewrite run_enter.
  destruct (Zod.safeParseObject _ _ _); reflexivity.
Qed.

Lemma references_oneIssue (key : Js.str) (c : Zod.ZodIssueCode) :
  references key (oneIssue c [key]).
Proof. unfold references, oneIssue. simpl. apply Exists_cons_hd. simpl. apply list_elem_of_here. Qed.

(** C4, as amended. For every request body that is an object and has no
    [name], or a [name] that is empty, all white space or not a string, the
    parse of the body fails with an error that references [name];
    [entityAs] then returns with status 400 and the rendered error as the
    one body sent whatever its continuation is, which it does not run, and
    the handler enters no function but [entityAs]. *)
Theorem entityAs_rejects_name (r : Zod.Release) (d : Draws) (req : Express.Request)
  (m : gmap Js.str Js.value) :
  Express.body req = Js.VObj m ->
  (m !! Js.lit "name" = None \/
   (exists s, m !! Js.lit "name" = Some (Js.VStr s) /\ blank s) \/
   (exists v, m !! Js.lit "name" = Some v /\ forall s, v <> Js.VStr s)) ->
  exists error,
    references (Js.lit "name") error /\
    Zod.safeParseObject r CreateProjectRequest (Express.body req) = Zod.failure error /\
    (forall result,
       entityAs r CreateProjectRequest result req start =
       (Normal tt, world 400 [Express.Stringified error] [in_entityAs])) /\
    post r d req start = (Normal tt, world 400 [Express.Stringified error] [in_entityAs]).
Proof.
  intros Hbody Hname.
  assert (H : exists c, Zod.safeParseObject r CreateProjectRequest (Express.body req)
                        = Zod.failure (oneIssue c [Js.lit "name"])).
  { rewrite Hbody, safeParse_request.
    destruct Hname as [->|[(s & -> & Hs)|(v & -> & Hv)]].
    - eexists. reflexivity.
    - apply trim_blank in Hs. rewrite Hs. eexists. reflexivity.
    - destruct v; try (eexists; reflexivity). destruct (Hv s eq_refl). }
  destruct H as [c H]. exists (oneIssue c [Js.lit "name"]).
  split; [apply references_oneIssue|]. split; [exact H|]. split.
  - intros result. rewrite entityAs_run, H. reflexivity.
  - rewrite post_run, H. reflexivity.
Qed.

Lemma entityAs_rejects_name_witness :
  (Express.body bare = Js.VObj ∅ /\
   ((∅ : gmap Js.str Js.value) !! Js.lit "name" = None \/
    (exists s, (∅ : gmap Js.str Js.value) !! Js.lit "name" = Some (Js.VStr s) /\ blank s) \/
    (exists v, (∅ : gmap Js.str Js.value) !! Js.lit "name" = Some v /\
               forall s, v <> Js.VStr s))) /\
  exists error,
    references (Js.lit "name") error /\
    Zod.safeParseObject Zod.since_3_22 CreateProjectRequest (Express.body bare) =
      Zod.failure error /\
    (forall result,
       entityAs Zod.since_3_22 CreateProjectRequest result bare start =
       (Normal tt, world 400 [Express.Stringified error] [in_entityAs])) /\
    post Zod.since_3_22 high bare start =
      (Normal tt, world 400 [Express.Stringified error] [in_entityAs]).
Proof.
  assert (H1 : Express.body bare = Js.VObj ∅) by reflexivity.
  assert (H2 : (∅ : gmap Js.str Js.value) !! Js.lit "name" = None) by reflexivity.
  split; [split; [exact H1|left; exact H2]|].
  exact (entityAs_rejects_name Zod.since_3_22 high bare ∅ H1 (or_introl H2)).
Defined.

(** C4, as stated, fails on the body [[]]: it has no [name] and the
    response is 400, but the one issue of the error sent has the empty path,
    so the error does not reference [name]. *)
Lemma entityAs_rejects_name_counterexample :
  field (Express.body listed) (Js.lit "name") = None /\
  post Zod.since_3_22 high listed start =
    (Normal tt,
     world 400
       [Express.Stringified (oneIssue (Zod.invalid_type Zod.object_ Zod.array_) [])]
       [in_entityAs]) /\
  ~ references (Js.lit "name") (oneIssue (Zod.invalid_type Zod.object_ Zod.array_) []).
Proof.
  split; [reflexivity|]. split; [vm_compute; reflexivity|].
  unfold references, oneIssue. simpl.
  rewrite Exists_cons, Exists_nil. simpl. intros [H|[]].
  apply elem_of_nil in H. exact H.
Qed.

(** A caller identity that parsed is longer than the apology, so it cannot
    occur in it. *)
Lemma apology_omits_uuid (r : Zod.Release) (u : Js.str) :
  Zod.uuidRegex r u = true -> Js.includes sry_no_user_found u = false.
Proof.
  intros H%uuidRegex_length.
  destruct (Js.includes sry_no_user_found u) eqn:E; [|reflexivity].
  apply includes_length in E. rewrite H in E. vm_compute in E. lia.
Qed.

Lemma safeParse_userId_success (r : Zod.Release) (token : Express.IncomingHeader)
  (userId : Js.str) :
  Zod.safeParseString r userIdFormat (Express.headerValue token) = Zod.success userId ->
  token = Express.One userId /\ Zod.uuidRegex r userId = true.
Proof.
  rewrite safeParse_userId. destruct token as [s|l]; simpl; [|discriminate].
  destruct (Zod.uuidRegex r s) eqn:E; [|discriminate].
  intros [= <-]. split; [reflexivity|exact E].
Qed.

(** The identity [UserNotFound] carries is the one [createProject] was
    given. *)
Lemma createProject_not_found (r : Zod.Release) (d : Draws) (userId u : Js.str)
  (request : gmap Js.str Js.value) (w : World) :
  fst (createProject r d userId request w) = Normal (UserNotFound u) -> u = userId.
Proof.
  rewrite createProject_run.
  destruct (Qltb _ _); simpl.
  - intros [= <-]. reflexivity.
  - destruct (Zod.safeParseString _ _ _); discriminate.
Qed.

(** C5. Whenever [createProject], called by the handler with the caller
    identity parsed from the header, returns [UserNotFound], the handler
    returns with status 404 and the text ["Sry, no user found"] as the one
    body sent; the [userId] the variant carries is the caller identity and
    does not occur in that text. *)
Theorem post_user_not_found (r : Zod.Release) (d : Draws) (req : Express.Request)
  (request : gmap Js.str Js.value) (token : Express.IncomingHeader)
  (userId u : Js.str) (w : World) :
  Zod.safeParseObject r CreateProjectRequest (Express.body req) = Zod.success request ->
  Express.headers req !! Js.lit "authorization" = Some token ->
  Zod.safeParseString r userIdFormat (Express.headerValue token) = Zod.success userId ->
  fst (createProject r d userId request w) = Normal (UserNotFound u) ->
  post r d req start =
    (Normal tt, world 404 [Express.Value (Js.VStr (Js.lit "Sry, no user found"))] stages) /\
  u = userId /\
  Js.includes (Js.lit "Sry, no user found") u = false.
Proof.
  intros Hbody Hheader Hid Hnot.
  split; [|split].
  - rewrite (post_identified r d req request token userId w Hbody Hheader Hid), Hnot.
    reflexivity.
  - exact (createProject_not_found _ _ _ _ _ _ Hnot).
  - rewrite (createProject_not_found _ _ _ _ _ _ Hnot).
    apply safeParse_userId_success in Hid as [_ Hid].
    exact (apology_omits_uuid r userId Hid).
Qed.

Lemma post_user_not_found_witness :
  (Zod.safeParseObject Zod.since_3_22 CreateProjectRequest (Express.body demo) =
     Zod.success {[ Js.lit "name" := Js.VStr (Js.lit "Demo") ]} /\
   Express.headers demo !! Js.lit "authorization" = Some (Express.One caller) /\
   Zod.safeParseString Zod.since_3_22 userIdFormat (Express.headerValue (Express.One caller)) =
     Zod.success caller /\
   fst (createProject Zod.since_3_22 low caller
          {[ Js.lit "name" := Js.VStr (Js.lit "Demo") ]} start) =
     Normal (UserNotFound caller)) /\
  post Zod.since_3_22 low demo start =
    (Normal tt, world 404 [Express.Value (Js.VStr (Js.lit "Sry, no user found"))] stages) /\
  caller = caller /\
  Js.includes (Js.lit "Sry, no user found") caller = false.
Proof.
  assert (H1 : Zod.safeParseObject Zod.since_3_22 CreateProjectRequest (Express.body demo) =
               Zod.success {[ Js.lit "name" := Js.VStr (Js.lit "Demo") ]})
    by (vm_compute; reflexivity).
  assert (H2 : Express.headers demo !! Js.lit "authorization" = Some (Express.One caller))
    by reflexivity.
  assert (H3 : Zod.safeParseString Zod.since_3_22 userIdFormat
                 (Express.headerValue (Express.One caller)) = Zod.success caller)
    by reflexivity.
  assert (H4 : fst (createProject Zod.since_3_22 low caller
                      {[ Js.lit "name" := Js.VStr (Js.lit "Demo") ]} start) =
               Normal (UserNotFound caller)) by reflexivity.
  split; [repeat split; assumption|].
  exact (post_user_not_found Zod.since_3_22 low demo _ _ _ _ start H1 H2 H3 H4).
Defined.

(** The functions entered, by how far the request gets. *)
Lemma trace_run (r : Zod.Release) (d : Draws) (req : Express.Request) :
  trace r d req =
  match Zod.safeParseObject r CreateProjectRequest (Express.body req) with
  | Zod.failure _ => [in_entityAs]
  | Zod.success _ =>
      match Express.headers req !! Js.lit "authorization" with
      | None => [in_entityAs; in_headerValueByName]
      | Some token =>
          match Zod.safeParseString r userIdFormat (Express.headerValue token) with
          | Zod.failure _ => [in_entityAs; in_headerValueByName; in_completeAsJson]
          | Zod.success _ => stages
          end
      end
  end.
Proof.
  unfold trace. rewrite post_run.
  destruct (Zod.safeParseObject _ _ _) as [request|error]; [|reflexivity].
  destruct (Express.headers req !! Js.lit "authorization") as [token|]; [|reflexivity].
  destruct (Zod.safeParseString _ _ _) as [userId|error]; [|reflexivity].
  rewrite createProject_run.
  destruct (Qltb _ _); [reflexivity|].
  destruct (Zod.safeParseString _ _ _); reflexivity.
Qed.

Lemma createProject_not_entered (calls : list Call) :
  calls `prefix_of` [in_entityAs; in_headerValueByName; in_completeAsJson] ->
  in_createProject ∉ calls.
Proof.
  intros [k E] Hin.
  assert (H : in_createProject ∈ [in_entityAs; in_headerValueByName; in_completeAsJson]).
  { rewrite E. apply elem_of_app. left. exact Hin. }
  rewrite !elem_of_cons in H. destruct H as [H|[H|[H|H]]]; try discriminate H.
  apply elem_of_nil in H. exact H.
Qed.

(** C7. On every request the functions entered are an initial run of
    [entityAs], [headerValueByName], [completeAsJson], [createProject], in
    that order and starting with [entityAs]; [createProject] is not entered
    when the body fails validation, nor when the [Authorization] header is
    absent. *)
Theorem post_stage_order (r : Zod.Release) (d : Draws) (req : Express.Request) :
  trace r d req `prefix_of` stages /\
  (exists rest, trace r d req = in_entityAs :: rest) /\
  ((exists error,
      Zod.safeParseObject r CreateProjectRequest (Express.body req) = Zod.failure error) ->
   trace r d req = [in_entityAs]) /\
  (Express.headers req !! Js.lit "authorization" = None ->
   in_createProject ∉ trace r d req).
Proof.
  rewrite trace_run.
  destruct (Zod.safeParseObject _ _ _) as [request|error].
  - destruct (Express.headers req !! Js.lit "authorization") as [token|].
    + split; [|split; [|split]].
      * destruct (Zod.safeParseString _ _ _); [reflexivity|].
        exists [in_createProject]. reflexivity.
      * destruct (Zod.safeParseString _ _ _); eexists; reflexivity.
      * intros [error E]. discriminate E.
      * intros E. discriminate E.
    + split; [|split; [|split]].
      * exists [in_completeAsJson; in_createProject]. reflexivity.
      * eexists. reflexivity.
      * intros [error E]. discriminate E.
      * intros _. apply createProject_not_entered.
        exists [in_completeAsJson]. reflexivity.
  - split; [|split; [|split]].
    + exists [in_headerValueByName; in_completeAsJson; in_createProject]. reflexivity.
    + eexists. reflexivity.
    + intros _. reflexivity.
    + intros _. apply createProject_not_entered.
      exists [in_headerValueByName; in_completeAsJson]. reflexivity.
Qed.

(** C8. For every body that is an object with a [name] that is a string
    with something left after trimming, whatever other properties the
    object has, validation succeeds, and [entityAs] runs its continuation on
    the object that holds [name] alone. *)
Theorem entityAs_strips (r : Zod.Release) (req : Express.Request)
  (m : gmap Js.str Js.value) (s : Js.str)
  (result : gmap Js.str Js.value -> RequestHandler) (w : World) :
  Express.body req = Js.VObj m ->
  m !! Js.lit "name" = Some (Js.VStr s) ->
  Js.trim s <> [] ->
  Zod.safeParseObject r CreateProjectRequest (Express.body req) =
    Zod.success {[ Js.lit "name" := Js.VStr (Js.trim s) ]} /\
  entityAs r CreateProjectRequest result req w =
    result {[ Js.lit "name" := Js.VStr (Js.trim s) ]} req (entering in_entityAs w) /\
  dom ({[ Js.lit "name" := Js.VStr (Js.trim s) ]} : gmap Js.str Js.value) = {[ Js.lit "name" ]}.
Proof.
  intros Hbody Hname Hvalid.
  assert (H := safeParse_request_valid r m s Hname Hvalid). rewrite <- Hbody in H.
  split; [exact H|]. split.
  - rewrite entityAs_run, H. reflexivity.
  - apply dom_singleton_L.
Qed.

Lemma entityAs_strips_witness :
  (Express.body extended =
     Js.VObj {[ Js.lit "name" := Js.VStr (Js.lit "Demo"); Js.lit "owner" := Js.VNull ]} /\
   ({[ Js.lit "name" := Js.VStr (Js.lit "Demo"); Js.lit "owner" := Js.VNull ]}
      : gmap Js.str Js.value) !! Js.lit "owner" = Some Js.VNull /\
   ({[ Js.lit "name" := Js.VStr (Js.lit "Demo"); Js.lit "owner" := Js.VNull ]}
      : gmap Js.str Js.value) !! Js.lit "name" = Some (Js.VStr (Js.lit "Demo")) /\
   Js.trim (Js.lit "Demo") <> []) /\
  Zod.safeParseObject Zod.since_3_22 CreateProjectRequest (Express.body extended) =
    Zod.success {[ Js.lit "name" := Js.VStr (Js.trim (Js.lit "Demo")) ]}.
Proof.
  assert (H1 : Express.body extended =
               Js.VObj {[ Js.lit "name" := Js.VStr (Js.lit "Demo"); Js.lit "owner" := Js.VNull ]})
    by reflexivity.
  assert (H2 : ({[ Js.lit "name" := Js.VStr (Js.lit "Demo"); Js.lit "owner" := Js.VNull ]}
                  : gmap Js.str Js.value) !! Js.lit "name" = Some (Js.VStr (Js.lit "Demo")))
    by (vm_compute; reflexivity).
  assert (H3 : Js.trim (Js.lit "Demo") <> []) by (vm_compute; discriminate).
  split; [repeat split; try assumption; vm_compute; reflexivity|].
  exact (proj1 (entityAs_strips Zod.since_3_22 extended _ _
                  (fun _ _ => mret tt) start H1 H2 H3)).
Defined.

(** * Further properties of the source *)

(** ** Project names *)

Lemma trimStart_split (s : Js.str) :
  exists ws, s = ws ++ Js.trimStart s.
Proof.
  induction s as [|c s [ws IH]]; simpl.
  - exists []. reflexivity.
  - destruct (Js.isWhiteSpace c).
    + exists (c :: ws). simpl. rewrite <- IH. reflexivity.
    + exists []. reflexivity.
Qed.

Lemma trimStart_fixed (c : Js.code_unit) (s : Js.str) :
  Js.isWhiteSpace c = false -> Js.trimStart (c :: s) = c :: s.
Proof. intros H. simpl. rewrite H. reflexivity. Qed.

Lemma trimStart_idem (s : Js.str) : Js.trimStart (Js.trimStart s) = Js.trimStart s.
Proof.
  destruct (Js.trimStart s) as [|c t] eqn:E; [reflexivity|].
  apply trimStart_fixed. exact (trimStart_head s c t E).
Qed.

(** What [trimEnd] keeps is an initial part of the string. *)
Lemma trimEnd_split (s : Js.str) :
  exists ws, s = Js.trimEnd s ++ ws.
Proof.
  unfold Js.trimEnd. destruct (trimStart_split (rev s)) as [ws E].
  exists (rev ws). rewrite <- rev_app_distr, <- E, rev_involutive. reflexivity.
Qed.

Lemma trim_head (s : Js.str) (c : Js.code_unit) :
  head (Js.trim s) = Some c -> Js.isWhiteSpace c = false.
Proof.
  unfold Js.trim. destruct (trimEnd_split (Js.trimStart s)) as [ws E].
  destruct (Js.trimEnd (Js.trimStart s)) as [|a t]; [discriminate|].
  simpl. intros [= ->]. simpl in E. exact (trimStart_head s c _ E).
Qed.

Lemma trim_last (s : Js.str) (c : Js.code_unit) :
  last (Js.trim s) = Some c -> Js.isWhiteSpace c = false.
Proof.
  unfold Js.trim, Js.trimEnd.
  destruct (Js.trimStart (rev (Js.trimStart s))) as [|a t] eqn:E; [discriminate|].
  simpl. rewrite last_snoc. intros [= <-]. exact (trimStart_head _ _ _ E).
Qed.

(** Trimming a trimmed string changes nothing. *)
Lemma trim_idem (s : Js.str) : Js.trim (Js.trim s) = Js.trim s.
Proof.
  assert (H : Js.trimStart (Js.trim s) = Js.trim s).
  { destruct (Js.trim s) as [|c t] eqn:E; [reflexivity|].
    apply trimStart_fixed. apply (trim_head s). rewrite E. reflexivity. }
  unfold Js.trim at 1. rewrite H.
  unfold Js.trim, Js.trimEnd. rewrite rev_involutive, trimStart_idem. reflexivity.
Qed.

Lemma safeParse_projectName (r : Zod.Release) (v : Js.value) :
  Zod.safeParseString r projectNameFormat v =
  match v with
  | Js.VStr s =>
      match Js.trim s with
      | [] => Zod.failure (oneIssue (Zod.too_small 1) [])
      | _ :: _ => Zod.success (Js.trim s)
      end
  | _ => Zod.failure (oneIssue (Zod.invalid_type Zod.string_ (Zod.getParsedType v)) [])
  end.
Proof.
  unfold Zod.safeParseString. rewrite parse_projectName.
  destruct v; try reflexivity. destruct (Js.trim s); reflexivity.
Qed.

(** X1. A name [projectNameFormat] accepts comes out non-empty, with no
    white space at either end, and is accepted again unchanged. *)
Theorem projectNameFormat_output (r : Zod.Release) (v : Js.value) (out : Js.str) :
  Zod.safeParseString r projectNameFormat v = Zod.success out ->
  out <> [] /\
  (forall c, head out = Some c -> Js.isWhiteSpace c = false) /\
  (forall c, last out = Some c -> Js.isWhiteSpace c = false) /\
  Zod.safeParseString r projectNameFormat (Js.VStr out) = Zod.success out.
Proof.
  rewrite safeParse_projectName.
  destruct v as [| | | |s| |]; try discriminate.
  destruct (Js.trim s) as [|c t] eqn:E; [discriminate|].
  intros [= <-]. rewrite <- E.
  split; [rewrite E; discriminate|].
  split; [apply trim_head|]. split; [apply trim_last|].
  rewrite safeParse_projectName, trim_idem, E. reflexivity.
Qed.

Lemma projectNameFormat_output_witness :
  Zod.safeParseString Zod.since_3_22 projectNameFormat (Js.VStr (Js.lit "  My project ")) =
    Zod.success (Js.lit "My project") /\
  Zod.safeParseString Zod.since_3_22 projectNameFormat (Js.VStr (Js.lit "My project")) =
    Zod.success (Js.lit "My project").
Proof.
  assert (H : Zod.safeParseString Zod.since_3_22 projectNameFormat
                (Js.VStr (Js.lit "  My project ")) = Zod.success (Js.lit "My project"))
    by (vm_compute; reflexivity).
  split; [exact H|].
  exact (proj2 (proj2 (proj2 (projectNameFormat_output Zod.since_3_22 _ _ H)))).
Defined.

(** ** Object shapes *)

(** The checks of a string format dirty the status exactly when they add an
    issue, and every issue they add is at the path of the string. *)
Lemma runChecks_issues (r : Zod.Release) (f : list Zod.ZodStringCheck)
  (at_ : list Js.str) (data : Js.str) :
  (fst (fst (Zod.runChecks r f at_ data)) = true <-> snd (Zod.runChecks r f at_ data) <> []) /\
  Forall (fun i => Zod.path i = at_) (snd (Zod.runChecks r f at_ data)).
Proof.
  revert data. induction f as [|c f IH]; intros data; simpl.
  - split; [split; [discriminate|intros H; destruct (H eq_refl)]|constructor].
  - destruct c as [|value|].
    + apply IH.
    + specialize (IH data).
      destruct (Zod.runChecks r f at_ data) as [[dirty out] found]. simpl in IH.
      destruct (Z.of_nat (length data) <? value); simpl; [|exact IH].
      split; [split; [discriminate|reflexivity]|].
      constructor; [reflexivity|apply IH].
    + specialize (IH data).
      destruct (Zod.runChecks r f at_ data) as [[dirty out] found]. simpl in IH.
      destruct (negb (Zod.uuidRegex r data)); simpl; [|exact IH].
      split; [split; [discriminate|reflexivity]|].
      constructor; [reflexivity|apply IH].
Qed.

(** A string format accepts exactly when it adds no issue. *)
Lemma ZodString_parse_issues (r : Zod.Release) (f : Zod.ZodString)
  (at_ : list Js.str) (v : Js.value) :
  (accepted (fst (Zod.ZodString_parse r f at_ v)) <->
   snd (Zod.ZodString_parse r f at_ v) = []) /\
  Forall (fun i => Zod.path i = at_) (snd (Zod.ZodString_parse r f at_ v)).
Proof.
  unfold Zod.ZodString_parse, accepted.
  destruct v as [| | | |s| |];
    try (split; [split; [intros [out [=]]|discriminate]|repeat constructor]).
  destruct (runChecks_issues r f at_ s) as [Hd Hp].
  destruct (Zod.runChecks r f at_ s) as [[dirty out] found]. simpl in *.
  split; [|exact Hp].
  destruct dirty; split.
  - intros [o [=]].
  - intros ->. destruct (proj1 Hd eq_refl eq_refl).
  - intros _. destruct found; [reflexivity|].
    assert (false = true) by (apply Hd; discriminate). discriminate.
  - intros _. eexists. reflexivity.
Qed.

(** The pairs of an object parse: one per key of the shape, in its order;
    every issue is found at one of the keys; no issue exactly when every
    pair is accepted. *)
Lemma parsePairs_issues (r : Zod.Release) (shape : Zod.ZodRawShape)
  (at_ : list Js.str) (data : gmap Js.str Js.value) :
  (fst (Zod.parsePairs r shape at_ data)).*1 = shape.*1 /\
  Forall (fun i => exists k, k ∈ shape.*1 /\ Zod.path i = at_ ++ [k])
    (snd (Zod.parsePairs r shape at_ data)) /\
  (snd (Zod.parsePairs r shape at_ data) = [] <->
   Forall (fun p => accepted (snd p)) (fst (Zod.parsePairs r shape at_ data))).
Proof.
  induction shape as [|[key f] shape (IHk & IHp & IHa)]; simpl.
  - split; [reflexivity|]. split; [constructor|]. split; constructor.
  - destruct (ZodString_parse_issues r f (at_ ++ [key])
                (default Js.VUndefined (data !! key))) as [Ha Hp].
    destruct (Zod.ZodString_parse r f (at_ ++ [key]) _) as [p found].
    destruct (Zod.parsePairs r shape at_ data) as [pairs found']. simpl in *.
    split; [f_equal; exact IHk|]. split.
    + apply Forall_app. split.
      * eapply Forall_impl; [exact Hp|]. intros i Hi. exists key.
        split; [apply list_elem_of_here|exact Hi].
      * eapply Forall_impl; [exact IHp|]. intros i (k & Hk & Hi). exists k.
        split; [apply list_elem_of_further; exact Hk|exact Hi].
    + rewrite Forall_cons. simpl. rewrite Ha, <- IHa. split.
      * intros [-> ->]%app_eq_nil. split; reflexivity.
      * intros [-> ->]. reflexivity.
Qed.

(** Merging accepted pairs into [acc] from a clean status succeeds. *)
Lemma mergeObjectSync_accepted (pairs : list (Js.str * Zod.ParseReturn Js.str))
  (acc : gmap Js.str Js.value) :
  Forall (fun p => accepted (snd p)) pairs ->
  accepted (Zod.mergeObjectSync false pairs acc).
Proof.
  revert acc. induction pairs as [|[key p] pairs IH]; intros acc Hall; simpl.
  - eexists. reflexivity.
  - apply Forall_cons in Hall as [[out Hout] Hall]. simpl in Hout. subst p.
    apply IH. exact Hall.
Qed.



Lemma handleResult_failure {A} (p : Zod.ParseReturn A) (found : list Zod.ZodIssue)
  (error : Zod.ZodError) :
  Zod.handleResult (p, found) = Zod.failure error ->
  ~ accepted p /\ error = {| Zod.issues := found |}.
Proof.
  destruct p; simpl; try discriminate; intros [= <-];
    (split; [intros [o [=]]|reflexivity]).
Qed.



(** X3. Whatever the shape, a validation that fails carries at least one
    issue.  For a body that is an object every issue is at one of the keys
    of the shape; for any other body the error is the one issue at the root
    that an object was expected.  [entityAs] answers 400 with that error and
    does not run its continuation. *)
Theorem entityAs_failure_issues (r : Zod.Release) (shape : Zod.ZodRawShape)
  (result : gmap Js.str Js.value -> RequestHandler) (req : Express.Request)
  (error : Zod.ZodError) :
  Zod.safeParseObject r shape (Express.body req) = Zod.failure error ->
  entityAs r shape result req start =
    (Normal tt, world 400 [Express.Stringified error] [in_entityAs]) /\
  Zod.issues error <> [] /\
  match Express.body req with
  | Js.VObj _ =>
      Forall (fun i => exists k, k ∈ shape.*1 /\ Zod.path i = [k]) (Zod.issues error)
  | other => error = oneIssue (Zod.invalid_type Zod.object_ (Zod.getParsedType other)) []
  end.
Proof.
  intros H. split; [rewrite entityAs_run, H; reflexivity|].
  unfold Zod.safeParseObject, Zod.ZodObject_parse in H.
  destruct (Express.body req) as [| | | | | |m];
    try (injection H as <-; split; [discriminate|reflexivity]).
  destruct (parsePairs_issues r shape [] m) as (_ & Hp & Ha).
  destruct (Zod.parsePairs r shape [] m) as [pairs found]. simpl in Hp, Ha.
  apply handleResult_failure in H as [Hno ->]. simpl. split; [|exact Hp].
  intros ->. apply Hno, mergeObjectSync_accepted, Ha. reflexivity.
Qed.

Lemma entityAs_failure_issues_witness :
  Zod.safeParseObject Zod.since_3_22 Project (Express.body bare) =
    Zod.failure
      {| Zod.issues :=
           [issue (Zod.invalid_type Zod.string_ Zod.undefined_) [Js.lit "id"];
            issue (Zod.invalid_type Zod.string_ Zod.undefined_) [Js.lit "userId"];
            issue (Zod.invalid_type Zod.string_ Zod.undefined_) [Js.lit "name"]] |} /\
  entityAs Zod.since_3_22 Project (fun _ _ => mret tt) bare start =
    (Normal tt,
     world 400
       [Express.Stringified
          {| Zod.issues :=
               [issue (Zod.invalid_type Zod.string_ Zod.undefined_) [Js.lit "id"];
                issue (Zod.invalid_type Zod.string_ Zod.undefined_) [Js.lit "userId"];
                issue (Zod.invalid_type Zod.string_ Zod.undefined_) [Js.lit "name"]] |}]
       [in_entityAs]).
Proof.
  assert (H : Zod.safeParseObject Zod.since_3_22 Project (Express.body bare) =
              Zod.failure
                {| Zod.issues :=
                     [issue (Zod.invalid_type Zod.string_ Zod.undefined_) [Js.lit "id"];
                      issue (Zod.invalid_type Zod.string_ Zod.undefined_) [Js.lit "userId"];
                      issue (Zod.invalid_type Zod.string_ Zod.undefined_) [Js.lit "name"]] |})
    by (vm_compute; reflexivity).
  split; [exact H|].
  exact (proj1 (entityAs_failure_issues Zod.since_3_22 Project (fun _ _ => mret tt) bare _ H)).
Defined.

Lemma parsePairs_agree (r : Zod.Release) (shape : Zod.ZodRawShape) (at_ : list Js.str)
  (m1 m2 : gmap Js.str Js.value) :
  (forall k, k ∈ shape.*1 -> m1 !! k = m2 !! k) ->
  Zod.parsePairs r shape at_ m1 = Zod.parsePairs r shape at_ m2.
Proof.
  induction shape as [|[key f] shape IH]; intros H; simpl; [reflexivity|].
  rewrite (H key) by apply list_elem_of_here.
  rewrite IH; [reflexivity|].
  intros k Hk. apply H. apply list_elem_of_further. exact Hk.
Qed.

(** X4. Whatever the shape, validation looks at the body only under the
    keys of the shape: two objects that agree there validate alike, with
    the same data or the same error. *)
Theorem entityAs_ignores_undeclared (r : Zod.Release) (shape : Zod.ZodRawShape)
  (m1 m2 : gmap Js.str Js.value) :
  (forall k, k ∈ shape.*1 -> m1 !! k = m2 !! k) ->
  Zod.safeParseObject r shape (Js.VObj m1) = Zod.safeParseObject r shape (Js.VObj m2).
Proof.
  intros H. unfold Zod.safeParseObject, Zod.ZodObject_parse.
  rewrite (parsePairs_agree r shape [] m1 m2 H). reflexivity.
Qed.

Lemma entityAs_ignores_undeclared_witness :
  Zod.safeParseObject Zod.since_3_22 Project returned =
  Zod.safeParseObject Zod.since_3_22 Project returned_exactly.
Proof.
  apply (entityAs_ignores_undeclared Zod.since_3_22 Project).
  intros k Hk. unfold Project in Hk. simpl in Hk.
  rewrite !elem_of_cons in Hk.
  destruct Hk as [->|[->|[->|Hk]]]; [vm_compute; reflexivity..|].
  apply elem_of_nil in Hk. destruct Hk.
Defined.

(** ** Projects *)

Lemma parse_uuid (r : Zod.Release) (at_ : list Js.str) (s : Js.str) :
  Zod.uuidRegex r s = true ->
  Zod.ZodString_parse r (Zod.uuid Zod.string) at_ (Js.VStr s) = (Zod.OK s, []).
Proof. intros H. unfold Zod.ZodString_parse. simpl. rewrite H. reflexivity. Qed.

Lemma parse_trimmed (r : Zod.Release) (at_ : list Js.str) (s : Js.str) :
  Js.trim s <> [] ->
  Zod.ZodString_parse r projectNameFormat at_ (Js.VStr (Js.trim s)) = (Zod.OK (Js.trim s), []).
Proof.
  intros H. rewrite parse_projectName, trim_idem.
  destruct (Js.trim s); [contradiction|reflexivity].
Qed.

(** X5. The project [createProject] returns for a caller identity that
    matches the uuid pattern and a request that came out of body validation
    satisfies the [Project] shape: validating it gives it back unchanged. *)
Theorem created_project_conforms (r : Zod.Release) (d : Draws) (body : Js.value)
  (request project : gmap Js.str Js.value) (userId : Js.str) (w : World) :
  Zod.safeParseObject r CreateProjectRequest body = Zod.success request ->
  Zod.uuidRegex r userId = true ->
  fst (createProject r d userId request w) = Normal (Created project) ->
  Zod.safeParseObject r Project (Js.VObj project) = Zod.success project.
Proof.
  intros Hbody Huser Hcreated.
  destruct (safeParse_request_success _ _ _ Hbody) as (m & s & _ & _ & Hs & ->).
  destruct (createProject_created _ _ _ _ _ _ Hcreated) as (id & Hid & ->).
  unfold Zod.safeParseObject, Zod.ZodObject_parse, Project, Zod.parsePairs.
  rewrite projectOf_id, projectOf_userId, projectOf_name, lookup_singleton_eq. simpl default.
  unfold projectIdFormat, userIdFormat.
  rewrite !parse_uuid by assumption. rewrite parse_trimmed by exact Hs.
  simpl. apply (f_equal Zod.success). unfold projectOf.
  rewrite (insert_insert_ne _ (Js.lit "name") (Js.lit "userId")) by lit_neq.
  rewrite (insert_insert_ne _ (Js.lit "name") (Js.lit "id")) by lit_neq.
  rewrite (insert_insert_ne _ (Js.lit "userId") (Js.lit "id")) by lit_neq.
  reflexivity.
Qed.

Lemma created_project_conforms_witness :
  Zod.safeParseObject Zod.before_3_22 Project
    (Js.VObj (projectOf (Uuid.v4 bytes) caller {[ Js.lit "name" := Js.VStr (Js.lit "Demo") ]})) =
  Zod.success (projectOf (Uuid.v4 bytes) caller {[ Js.lit "name" := Js.VStr (Js.lit "Demo") ]}).
Proof.
  apply (created_project_conforms Zod.before_3_22 high (named " Demo ")
           {[ Js.lit "name" := Js.VStr (Js.lit "Demo") ]} _ caller start).
  - vm_compute. reflexivity.
  - reflexivity.
  - vm_compute. reflexivity.
Defined.

(** X6. In a project [createProject] returns, [userId] is the caller
    identity it was given and [id] is an identifier that matches the uuid
    pattern, whatever the request holds under these two keys; every other
    property of the request is copied as it is, and nothing else is added. *)
Theorem createProject_overrides (r : Zod.Release) (d : Draws) (userId : Js.str)
  (request project : gmap Js.str Js.value) (w : World) :
  fst (createProject r d userId request w) = Normal (Created project) ->
  project !! Js.lit "userId" = Some (Js.VStr userId) /\
  (exists id, project !! Js.lit "id" = Some (Js.VStr id) /\ Zod.uuidRegex r id = true) /\
  (forall k, k <> Js.lit "id" -> k <> Js.lit "userId" -> project !! k = request !! k) /\
  dom project = {[ Js.lit "id"; Js.lit "userId" ]} ∪ dom request.
Proof.
  intros H. destruct (createProject_created _ _ _ _ _ _ H) as (id & Hid & ->).
  split; [apply projectOf_userId|].
  split; [exists id; split; [apply projectOf_id|exact Hid]|]. split.
  - intros k Hk1 Hk2. unfold projectOf.
    rewrite !lookup_insert_ne by congruence. reflexivity.
  - unfold projectOf. rewrite !dom_insert_L. apply set_eq. intros x.
    rewrite !elem_of_union. tauto.
Qed.

Lemma createProject_overrides_witness :
  fst (createProject Zod.since_3_22 high caller forged start) =
    Normal (Created (projectOf (Uuid.v4 bytes) caller forged)) /\
  projectOf (Uuid.v4 bytes) caller forged !! Js.lit "userId" = Some (Js.VStr caller).
Proof.
  assert (H : fst (createProject Zod.since_3_22 high caller forged start) =
              Normal (Created (projectOf (Uuid.v4 bytes) caller forged)))
    by (vm_compute; reflexivity).
  split; [exact H|].
  exact (proj1 (createProject_overrides Zod.since_3_22 high caller forged _ start H)).
Defined.

(** ** The handler as a whole *)

(** X7. On every request the handler either returns, having sent exactly
    one body with status 201, 400 or 404, or throws, having written nothing
    to the response. *)
Theorem post_writes_once (r : Zod.Release) (d : Draws) (req : Express.Request) :
  match post r d req start with
  | (Normal _, w) =>
      (exists payload, Express.sent (res w) = [payload]) /\
      (Express.statusCode (res w) = 201 \/
       Express.statusCode (res w) = 400 \/
       Express.statusCode (res w) = 404)
  | (Throw _, w) => res w = Express.fresh
  end.
Proof.
  rewrite post_run.
  destruct (Zod.safeParseObject _ _ _) as [request|error];
    [|split; [eexists; reflexivity|right; left; reflexivity]].
  destruct (Express.headers req !! Js.lit "authorization") as [token|];
    [|split; [eexists; reflexivity|right; left; reflexivity]].
  destruct (Zod.safeParseString _ _ _) as [userId|error]; [|reflexivity].
  rewrite createProject_run.
  destruct (Qltb _ _); [split; [eexists; reflexivity|right; right; reflexivity]|].
  destruct (Zod.safeParseString _ _ _); [|reflexivity].
  split; [eexists; reflexivity|left; reflexivity].
Qed.

(** X8. With sixteen random bytes for [v4], the handler throws in one case
    only: the body passed validation, the [Authorization] header is present
    and its value does not parse as a caller identity. *)
Theorem post_throws_only_unidentified (r : Zod.Release) (d : Draws) (req : Express.Request) :
  Uuid.isRandomBytes (rnds d) ->
  (exists error w, post r d req start = (Throw error, w)) <->
  (exists request token error,
     Zod.safeParseObject r CreateProjectRequest (Express.body req) = Zod.success request /\
     Express.headers req !! Js.lit "authorization" = Some token /\
     Zod.safeParseString r userIdFormat (Express.headerValue token) = Zod.failure error).
Proof.
  intros Hrnds. rewrite post_run. split.
  - intros (error & w & H).
    destruct (Zod.safeParseObject _ _ _) as [request|e]; [|discriminate H].
    destruct (Express.headers req !! Js.lit "authorization") as [token|]; [|discriminate H].
    destruct (Zod.safeParseString r userIdFormat _) as [userId|e] eqn:E.
    + rewrite createProject_run, projectIdFormat_v4 in H by exact Hrnds.
      destruct (Qltb _ _); discriminate H.
    + exists request, token, e. repeat split. exact E.
  - intros (request & token & error & -> & -> & ->). eexists _, _. reflexivity.
Qed.

Lemma post_throws_only_unidentified_witness :
  Uuid.isRandomBytes (rnds high) /\
  exists error w, post Zod.since_3_22 high garbled start = (Throw error, w).
Proof.
  split; [exact bytes_random|].
  apply (post_throws_only_unidentified Zod.since_3_22 high garbled bytes_random).
  eexists _, _, _. repeat split; vm_compute; reflexivity.
Defined.

(** X9. The status of the response tells what happened: 201 only for an
    object body whose [name] is a string with something left after
    trimming, a header that is one string matching the uuid pattern and a
    draw not below the threshold, the body sent being the project made of
    the trimmed name, the header value and a matching [id]; 404 only for a
    valid body, such a header and a draw below the threshold; 400 only for
    an invalid body or an absent header. *)
Theorem post_status_cause (r : Zod.Release) (d : Draws) (req : Express.Request)
  (c : Completion unit) (w : World) :
  post r d req start = (c, w) ->
  (Express.statusCode (res w) = 201 ->
   exists m s token id,
     Express.body req = Js.VObj m /\ m !! Js.lit "name" = Some (Js.VStr s) /\
     Js.trim s <> [] /\
     Express.headers req !! Js.lit "authorization" = Some (Express.One token) /\
     Zod.uuidRegex r token = true /\
     ~ Qlt (Math_random d) literal_0_3 /\
     Zod.uuidRegex r id = true /\
     Express.sent (res w) =
       [Express.Value
          (Js.VObj (projectOf id token {[ Js.lit "name" := Js.VStr (Js.trim s) ]}))]) /\
  (Express.statusCode (res w) = 404 ->
   exists request token,
     Zod.safeParseObject r CreateProjectRequest (Express.body req) = Zod.success request /\
     Express.headers req !! Js.lit "authorization" = Some (Express.One token) /\
     Zod.uuidRegex r token = true /\
     Qlt (Math_random d) literal_0_3) /\
  (Express.statusCode (res w) = 400 ->
   (exists error,
      Zod.safeParseObject r CreateProjectRequest (Express.body req) = Zod.failure error) \/
   Express.headers req !! Js.lit "authorization" = None).
Proof.
  rewrite post_run.
  destruct (Zod.safeParseObject _ _ _) as [request|error] eqn:Hbody.
  2:{ intros [= <- <-]. repeat split; try discriminate. intros _. left. eexists. reflexivity. }
  destruct (Express.headers req !! Js.lit "authorization") as [token|] eqn:Hheader.
  2:{ intros [= <- <-]. repeat split; try discriminate. intros _. right. reflexivity. }
  destruct (Zod.safeParseString r userIdFormat _) as [userId|error] eqn:Hid.
  2:{ intros [= <- <-]. repeat split; discriminate. }
  apply safeParse_userId_success in Hid as [-> Huser].
  rewrite createProject_run.
  destruct (Qltb _ _) eqn:Hlt.
  { intros [= <- <-]. repeat split; try discriminate. intros _.
    exists request, userId. repeat split; try assumption. apply Qltb_lt. exact Hlt. }
  change projectIdFormat with userIdFormat. rewrite safeParse_userId.
  destruct (Zod.uuidRegex r (Uuid.v4 (rnds d))) eqn:Hv4.
  2:{ intros [= <- <-]. repeat split; discriminate. }
  intros [= <- <-]. repeat split; try discriminate. intros _.
  destruct (safeParse_request_success _ _ _ Hbody) as (m & s & Hm & Hs & Hne & ->).
  exists m, s, userId, (Uuid.v4 (rnds d)). repeat split; try assumption.
  intros H%Qltb_lt. rewrite H in Hlt. discriminate Hlt.
Qed.

Lemma post_status_cause_witness :
  post Zod.since_3_22 low demo start =
    (Normal tt, world 404 [Express.Value (Js.VStr sry_no_user_found)] stages) /\
  exists request token,
    Zod.safeParseObject Zod.since_3_22 CreateProjectRequest (Express.body demo) =
      Zod.success request /\
    Express.headers demo !! Js.lit "authorization" = Some (Express.One token) /\
    Zod.uuidRegex Zod.since_3_22 token = true /\
    Qlt (Math_random low) literal_0_3.
Proof.
  assert (H : post Zod.since_3_22 low demo start =
              (Normal tt, world 404 [Express.Value (Js.VStr sry_no_user_found)] stages))
    by (vm_compute; reflexivity).
  split; [exact H|].
  exact (proj1 (proj2 (post_status_cause Zod.since_3_22 low demo _ _ H)) eq_refl).
Defined.

(** X10. The response depends on the body only through its [name] trimmed
    and on the headers only through [Authorization]: two requests with
    object bodies whose names are strings that trim alike, and with the same
    [Authorization] value, are answered alike under the same draws. *)
Theorem post_depends_on_name_and_header (r : Zod.Release) (d : Draws)
  (req1 req2 : Express.Request) (m1 m2 : gmap Js.str Js.value) (s1 s2 : Js.str) :
  Express.body req1 = Js.VObj m1 -> Express.body req2 = Js.VObj m2 ->
  m1 !! Js.lit "name" = Some (Js.VStr s1) -> m2 !! Js.lit "name" = Some (Js.VStr s2) ->
  Js.trim s1 = Js.trim s2 ->
  Express.headers req1 !! Js.lit "authorization" =
    Express.headers req2 !! Js.lit "authorization" ->
  post r d req1 start = post r d req2 start.
Proof.
  intros Hb1 Hb2 Hn1 Hn2 Htrim Hheader.
  rewrite !post_run, Hb1, Hb2, !safeParse_request, Hn1, Hn2, Htrim, Hheader.
  reflexivity.
Qed.

Lemma post_depends_on_name_and_header_witness :
  post Zod.since_3_22 high padded start = post Zod.since_3_22 high extended start.
Proof.
  apply (post_depends_on_name_and_header Zod.since_3_22 high padded extended
           {[ Js.lit "name" := Js.VStr (Js.lit " Demo ") ]}
           {[ Js.lit "name" := Js.VStr (Js.lit "Demo"); Js.lit "owner" := Js.VNull ]}
           (Js.lit " Demo ") (Js.lit "Demo"));
    vm_compute; reflexivity.
Defined.

(** X11. When the draw of [Math.random()] is a multiple of 2^-53 in [0,1),
    [createProject] returns [UserNotFound] exactly when the draw is below
    three tenths: rounding the literal [0.3] to a double moves no draw
    across the threshold. *)
Theorem createProject_three_tenths (r : Zod.Release) (d : Draws) (userId : Js.str)
  (request : gmap Js.str Js.value) (w : World) (k : Z) :
  0 <= k < 2 ^ 53 ->
  Math_random d = k # 9007199254740992 ->
  fst (createProject r d userId request w) = Normal (UserNotFound userId) <->
  Qlt (Math_random d) (3 # 10).
Proof.
  intros Hk Hd. rewrite createProject_run, Hd, <- (literal_0_3_on_grid k Hk), <- Qltb_lt.
  destruct (Qltb _ _).
  - split; reflexivity.
  - destruct (Zod.safeParseString _ _ _); split; discriminate.
Qed.

Lemma createProject_three_tenths_witness :
  (0 <= 2702159776422297 < 2 ^ 53 /\
   Math_random {| Math_random := 2702159776422297 # 9007199254740992; rnds := bytes |} =
     2702159776422297 # 9007199254740992) /\
  fst (createProject Zod.since_3_22
         {| Math_random := 2702159776422297 # 9007199254740992; rnds := bytes |}
         caller ∅ start) = Normal (UserNotFound caller).
Proof.
  assert (H1 : 0 <= 2702159776422297 < 2 ^ 53) by (split; [discriminate|reflexivity]).
  split; [split; [exact H1|reflexivity]|].
  apply (createProject_three_tenths Zod.since_3_22
           {| Math_random := 2702159776422297 # 9007199254740992; rnds := bytes |}
           caller ∅ start 2702159776422297 H1 eq_refl).
  reflexivity.
Defined.
